(** * Resource-ID parsing and the activity-log-alert adapter

    A shallow embedding of two parts of the provider:

    - the generated resource ID of a Verifier Workspace (package
      [reachabilityanalysisruns]): [ID], [Segments], [FromParseResult],
      [ParseVerifierWorkspaceID], [ParseVerifierWorkspaceIDInsensitively],
      [ValidateVerifierWorkspaceID];
    - the activity log alert resource (package [monitor]): the expand and
      flatten functions of the criteria block and of the action block, and
      the delete, read and create-and-update hooks.

    Go strings are byte strings ([string]); Go maps are [gmap]; a value of
    type [interface{}] is a [Value]; a function of the sources returning
    [(T, error)] returns a pair of options, a collaborator that is not
    among the sources returns a sum, a pointer receiver is passed in and
    returned, and a run-time panic is an explicit outcome. *)

From Stdlib Require Import Ascii String List Bool NArith ZArith.
From stdpp Require Import base option list strings gmap.

Local Open Scope string_scope.
Local Open Scope list_scope.
Local Set Warnings "-register-all".

(** ** Go's [strings] package, on byte strings *)

Module strings.

(** [strings.Split(s, sep)] for a one-byte separator: the pieces of [s]
    between the occurrences of [sep]; never the empty list. *)
Fixpoint Split (s : string) (sep : ascii) : list string :=
  match s with
  | EmptyString => [EmptyString]
  | String c rest =>
      if Ascii.eqb c sep then EmptyString :: Split rest sep
      else match Split rest sep with
           | piece :: pieces => String c piece :: pieces
           | [] => [String c EmptyString]
           end
  end.

(** One byte of [strings.ToLower] on a string without bytes above 0x7F:
    'A'..'Z' go to 'a'..'z', every other byte is kept. *)
Definition lowerByte (c : ascii) : ascii :=
  let n := N_of_ascii c in
  if ((65 <=? n) && (n <=? 90))%N then ascii_of_N (n + 32) else c.

Fixpoint lowerBytes (s : string) : string :=
  match s with
  | EmptyString => EmptyString
  | String c rest => String (lowerByte c) (lowerBytes rest)
  end.

(** Whether every byte is below [utf8.RuneSelf]. *)
Fixpoint isASCII (s : string) : bool :=
  match s with
  | EmptyString => true
  | String c rest => (N_of_ascii c <? 128)%N && isASCII rest
  end.

Definition byteOf (c : ascii) : Z := Z.of_N (N_of_ascii c).
Definition charOf (b : Z) : ascii := ascii_of_N (Z.to_N b).
Definition inRange (lo hi b : Z) : bool := ((lo <=? b) && (b <=? hi))%Z.

(** [utf8.RuneError], the rune of an invalid encoding. *)
Definition RuneError : Z := 0xFFFD.

(** [utf8.DecodeRuneInString]: the first rune of [s] and its width in
    bytes; [RuneError] with width 1 for a byte that starts no valid
    encoding (a stray continuation byte, an overlong or truncated
    encoding, a surrogate, a value above U+10FFFF), width 0 for the empty
    string. *)
Definition DecodeRuneInString (s : string) : Z * nat :=
  match s with
  | EmptyString => (RuneError, 0%nat)
  | String c0 rest =>
      let b0 := byteOf c0 in
      if (b0 <? 0x80)%Z then (b0, 1%nat)
      else if inRange 0xC2 0xDF b0 then
        match rest with
        | String c1 _ =>
            let b1 := byteOf c1 in
            if inRange 0x80 0xBF b1
            then (Z.lor (Z.shiftl (Z.land b0 0x1F) 6) (Z.land b1 0x3F), 2%nat)
            else (RuneError, 1%nat)
        | EmptyString => (RuneError, 1%nat)
        end
      else if inRange 0xE0 0xEF b0 then
        match rest with
        | String c1 (String c2 _) =>
            let b1 := byteOf c1 in
            let b2 := byteOf c2 in
            let lo := if (b0 =? 0xE0)%Z then 0xA0%Z else 0x80%Z in
            let hi := if (b0 =? 0xED)%Z then 0x9F%Z else 0xBF%Z in
            if inRange lo hi b1 && inRange 0x80 0xBF b2
            then (Z.lor (Z.shiftl (Z.land b0 0x0F) 12)
                    (Z.lor (Z.shiftl (Z.land b1 0x3F) 6) (Z.land b2 0x3F)), 3%nat)
            else (RuneError, 1%nat)
        | _ => (RuneError, 1%nat)
        end
      else if inRange 0xF0 0xF4 b0 then
        match rest with
        | String c1 (String c2 (String c3 _)) =>
            let b1 := byteOf c1 in
            let b2 := byteOf c2 in
            let b3 := byteOf c3 in
            let lo := if (b0 =? 0xF0)%Z then 0x90%Z else 0x80%Z in
            let hi := if (b0 =? 0xF4)%Z then 0x8F%Z else 0xBF%Z in
            if inRange lo hi b1 && inRange 0x80 0xBF b2 && inRange 0x80 0xBF b3
            then (Z.lor (Z.shiftl (Z.land b0 0x07) 18)
                    (Z.lor (Z.shiftl (Z.land b1 0x3F) 12)
                       (Z.lor (Z.shiftl (Z.land b2 0x3F) 6) (Z.land b3 0x3F))),
                  4%nat)
            else (RuneError, 1%nat)
        | _ => (RuneError, 1%nat)
        end
      else (RuneError, 1%nat)
  end.

Definition bytes3 (r : Z) : string :=
  String (charOf (Z.lor 0xE0 (Z.shiftr r 12)))
    (String (charOf (Z.lor 0x80 (Z.land (Z.shiftr r 6) 0x3F)))
       (String (charOf (Z.lor 0x80 (Z.land r 0x3F))) EmptyString)).

(** The UTF-8 encoding of a rune, as [strings.Builder.WriteRune] writes
    it; a surrogate or a value out of range is written as [RuneError]. *)
Definition EncodeRune (r : Z) : string :=
  if inRange 0 0x7F r then String (charOf r) EmptyString
  else if inRange 0x80 0x7FF r then
    String (charOf (Z.lor 0xC0 (Z.shiftr r 6)))
      (String (charOf (Z.lor 0x80 (Z.land r 0x3F))) EmptyString)
  else if inRange 0x800 0xD7FF r || inRange 0xE000 0xFFFF r then bytes3 r
  else if inRange 0x10000 0x10FFFF r then
    String (charOf (Z.lor 0xF0 (Z.shiftr r 18)))
      (String (charOf (Z.lor 0x80 (Z.land (Z.shiftr r 12) 0x3F)))
         (String (charOf (Z.lor 0x80 (Z.land (Z.shiftr r 6) 0x3F)))
            (String (charOf (Z.lor 0x80 (Z.land r 0x3F))) EmptyString)))
  else bytes3 RuneError.

(** [strings.Map(mapping, s)] for a mapping that drops no rune: the runes
    of [s], decoded one after the other, each mapped and encoded again.
    [skip] counts the bytes still to pass of the rune decoded last. *)
Fixpoint mapRunes (mapping : Z -> Z) (skip : nat) (s : string) : string :=
  match s with
  | EmptyString => EmptyString
  | String _ rest =>
      match skip with
      | S skip' => mapRunes mapping skip' rest
      | O =>
          let '(r, width) := DecodeRuneInString s in
          EncodeRune (mapping r) +:+ mapRunes mapping (Nat.pred width) rest
      end
  end.

Definition Map (mapping : Z -> Z) (s : string) : string := mapRunes mapping 0 s.

(** The lower-case mappings of [unicode.CaseRanges] above U+007F, as
    ranges (first, last, stride, offset): the simple lower-case mappings
    of the Unicode Character Database, version 14.0. *)
Definition lowerRanges : list (Z * Z * Z * Z) := Eval cbv in
([ (0xC0, 0xD6, 1, 32); (0xD8, 0xDE, 1, 32); (0x100, 0x12E, 2, 1);
    (0x130, 0x130, 1, (-199)); (0x132, 0x136, 2, 1); (0x139, 0x147, 2, 1);
    (0x14A, 0x176, 2, 1); (0x178, 0x178, 1, (-121)); (0x179, 0x17D, 2, 1);
    (0x181, 0x181, 1, 210); (0x182, 0x184, 2, 1); (0x186, 0x186, 1, 206);
    (0x187, 0x187, 1, 1); (0x189, 0x18A, 1, 205); (0x18B, 0x18B, 1, 1);
    (0x18E, 0x18E, 1, 79); (0x18F, 0x18F, 1, 202); (0x190, 0x190, 1, 203);
    (0x191, 0x191, 1, 1); (0x193, 0x193, 1, 205); (0x194, 0x194, 1, 207);
    (0x196, 0x196, 1, 211); (0x197, 0x197, 1, 209); (0x198, 0x198, 1, 1);
    (0x19C, 0x19C, 1, 211); (0x19D, 0x19D, 1, 213); (0x19F, 0x19F, 1, 214);
    (0x1A0, 0x1A4, 2, 1); (0x1A6, 0x1A6, 1, 218); (0x1A7, 0x1A7, 1, 1);
    (0x1A9, 0x1A9, 1, 218); (0x1AC, 0x1AC, 1, 1); (0x1AE, 0x1AE, 1, 218);
    (0x1AF, 0x1AF, 1, 1); (0x1B1, 0x1B2, 1, 217); (0x1B3, 0x1B5, 2, 1);
    (0x1B7, 0x1B7, 1, 219); (0x1B8, 0x1B8, 1, 1); (0x1BC, 0x1BC, 1, 1);
    (0x1C4, 0x1C4, 1, 2); (0x1C5, 0x1C5, 1, 1); (0x1C7, 0x1C7, 1, 2);
    (0x1C8, 0x1C8, 1, 1); (0x1CA, 0x1CA, 1, 2); (0x1CB, 0x1DB, 2, 1);
    (0x1DE, 0x1EE, 2, 1); (0x1F1, 0x1F1, 1, 2); (0x1F2, 0x1F4, 2, 1);
    (0x1F6, 0x1F6, 1, (-97)); (0x1F7, 0x1F7, 1, (-56)); (0x1F8, 0x21E, 2, 1);
    (0x220, 0x220, 1, (-130)); (0x222, 0x232, 2, 1);
    (0x23A, 0x23A, 1, 10795); (0x23B, 0x23B, 1, 1);
    (0x23D, 0x23D, 1, (-163)); (0x23E, 0x23E, 1, 10792);
    (0x241, 0x241, 1, 1); (0x243, 0x243, 1, (-195)); (0x244, 0x244, 1, 69);
    (0x245, 0x245, 1, 71); (0x246, 0x24E, 2, 1); (0x370, 0x372, 2, 1);
    (0x376, 0x376, 1, 1); (0x37F, 0x37F, 1, 116); (0x386, 0x386, 1, 38);
    (0x388, 0x38A, 1, 37); (0x38C, 0x38C, 1, 64); (0x38E, 0x38F, 1, 63);
    (0x391, 0x3A1, 1, 32); (0x3A3, 0x3AB, 1, 32); (0x3CF, 0x3CF, 1, 8);
    (0x3D8, 0x3EE, 2, 1); (0x3F4, 0x3F4, 1, (-60)); (0x3F7, 0x3F7, 1, 1);
    (0x3F9, 0x3F9, 1, (-7)); (0x3FA, 0x3FA, 1, 1); (0x3FD, 0x3FF, 1, (-130));
    (0x400, 0x40F, 1, 80); (0x410, 0x42F, 1, 32); (0x460, 0x480, 2, 1);
    (0x48A, 0x4BE, 2, 1); (0x4C0, 0x4C0, 1, 15); (0x4C1, 0x4CD, 2, 1);
    (0x4D0, 0x52E, 2, 1); (0x531, 0x556, 1, 48); (0x10A0, 0x10C5, 1, 7264);
    (0x10C7, 0x10C7, 1, 7264); (0x10CD, 0x10CD, 1, 7264);
    (0x13A0, 0x13EF, 1, 38864); (0x13F0, 0x13F5, 1, 8);
    (0x1C90, 0x1CBA, 1, (-3008)); (0x1CBD, 0x1CBF, 1, (-3008));
    (0x1E00, 0x1E94, 2, 1); (0x1E9E, 0x1E9E, 1, (-7615));
    (0x1EA0, 0x1EFE, 2, 1); (0x1F08, 0x1F0F, 1, (-8));
    (0x1F18, 0x1F1D, 1, (-8)); (0x1F28, 0x1F2F, 1, (-8));
    (0x1F38, 0x1F3F, 1, (-8)); (0x1F48, 0x1F4D, 1, (-8));
    (0x1F59, 0x1F5F, 2, (-8)); (0x1F68, 0x1F6F, 1, (-8));
    (0x1F88, 0x1F8F, 1, (-8)); (0x1F98, 0x1F9F, 1, (-8));
    (0x1FA8, 0x1FAF, 1, (-8)); (0x1FB8, 0x1FB9, 1, (-8));
    (0x1FBA, 0x1FBB, 1, (-74)); (0x1FBC, 0x1FBC, 1, (-9));
    (0x1FC8, 0x1FCB, 1, (-86)); (0x1FCC, 0x1FCC, 1, (-9));
    (0x1FD8, 0x1FD9, 1, (-8)); (0x1FDA, 0x1FDB, 1, (-100));
    (0x1FE8, 0x1FE9, 1, (-8)); (0x1FEA, 0x1FEB, 1, (-112));
    (0x1FEC, 0x1FEC, 1, (-7)); (0x1FF8, 0x1FF9, 1, (-128));
    (0x1FFA, 0x1FFB, 1, (-126)); (0x1FFC, 0x1FFC, 1, (-9));
    (0x2126, 0x2126, 1, (-7517)); (0x212A, 0x212A, 1, (-8383));
    (0x212B, 0x212B, 1, (-8262)); (0x2132, 0x2132, 1, 28);
    (0x2160, 0x216F, 1, 16); (0x2183, 0x2183, 1, 1); (0x24B6, 0x24CF, 1, 26);
    (0x2C00, 0x2C2F, 1, 48); (0x2C60, 0x2C60, 1, 1);
    (0x2C62, 0x2C62, 1, (-10743)); (0x2C63, 0x2C63, 1, (-3814));
    (0x2C64, 0x2C64, 1, (-10727)); (0x2C67, 0x2C6B, 2, 1);
    (0x2C6D, 0x2C6D, 1, (-10780)); (0x2C6E, 0x2C6E, 1, (-10749));
    (0x2C6F, 0x2C6F, 1, (-10783)); (0x2C70, 0x2C70, 1, (-10782));
    (0x2C72, 0x2C72, 1, 1); (0x2C75, 0x2C75, 1, 1);
    (0x2C7E, 0x2C7F, 1, (-10815)); (0x2C80, 0x2CE2, 2, 1);
    (0x2CEB, 0x2CED, 2, 1); (0x2CF2, 0x2CF2, 1, 1); (0xA640, 0xA66C, 2, 1);
    (0xA680, 0xA69A, 2, 1); (0xA722, 0xA72E, 2, 1); (0xA732, 0xA76E, 2, 1);
    (0xA779, 0xA77B, 2, 1); (0xA77D, 0xA77D, 1, (-35332));
    (0xA77E, 0xA786, 2, 1); (0xA78B, 0xA78B, 1, 1);
    (0xA78D, 0xA78D, 1, (-42280)); (0xA790, 0xA792, 2, 1);
    (0xA796, 0xA7A8, 2, 1); (0xA7AA, 0xA7AA, 1, (-42308));
    (0xA7AB, 0xA7AB, 1, (-42319)); (0xA7AC, 0xA7AC, 1, (-42315));
    (0xA7AD, 0xA7AD, 1, (-42305)); (0xA7AE, 0xA7AE, 1, (-42308));
    (0xA7B0, 0xA7B0, 1, (-42258)); (0xA7B1, 0xA7B1, 1, (-42282));
    (0xA7B2, 0xA7B2, 1, (-42261)); (0xA7B3, 0xA7B3, 1, 928);
    (0xA7B4, 0xA7C2, 2, 1); (0xA7C4, 0xA7C4, 1, (-48));
    (0xA7C5, 0xA7C5, 1, (-42307)); (0xA7C6, 0xA7C6, 1, (-35384));
    (0xA7C7, 0xA7C9, 2, 1); (0xA7D0, 0xA7D0, 1, 1); (0xA7D6, 0xA7D8, 2, 1);
    (0xA7F5, 0xA7F5, 1, 1); (0xFF21, 0xFF3A, 1, 32);
    (0x10400, 0x10427, 1, 40); (0x104B0, 0x104D3, 1, 40);
    (0x10570, 0x1057A, 1, 39); (0x1057C, 0x1058A, 1, 39);
    (0x1058C, 0x10592, 1, 39); (0x10594, 0x10595, 1, 39);
    (0x10C80, 0x10CB2, 1, 64); (0x118A0, 0x118BF, 1, 32);
    (0x16E40, 0x16E5F, 1, 32); (0x1E900, 0x1E921, 1, 34) ])%Z.

Fixpoint lookupLower (ranges : list (Z * Z * Z * Z)) (r : Z) : Z :=
  match ranges with
  | [] => r
  | (lo, hi, stride, offset) :: ranges' =>
      if inRange lo hi r && ((r - lo) mod stride =? 0)%Z then (r + offset)%Z
      else lookupLower ranges' r
  end.

(** [unicode.ToLower]. *)
Definition unicodeToLower (r : Z) : Z :=
  if (r <=? 0x7F)%Z then (if inRange 65 90 r then r + 32 else r)%Z
  else lookupLower lowerRanges r.

(** [strings.ToLower]: byte by byte when the string has no byte above
    0x7F, rune by rune otherwise (an invalid byte comes out as U+FFFD). *)
Definition ToLower (s : string) : string :=
  if isASCII s then lowerBytes s else Map unicodeToLower s.

(** Equality up to the case of the ASCII letters, the case-insensitive
    comparison of the parser model. *)
Definition EqualFold (s t : string) : bool :=
  String.eqb (lowerBytes s) (lowerBytes t).

(** [strings.Contains(s, string(c))]. *)
Fixpoint ContainsByte (s : string) (c : ascii) : bool :=
  match s with
  | EmptyString => false
  | String d rest => Ascii.eqb d c || ContainsByte rest c
  end.

End strings.

(** ** Values of type [interface{}] *)

Inductive Value : Type :=
| VNil
| VString (s : string)
| VBool (b : bool)
| VInt (n : Z)
| VList (l : list Value)
| VMap (m : gmap string Value).

(** ** Package [resourceids] *)

Module resourceids.

Inductive SegmentType : Type :=
| StaticSegmentType
| SubscriptionIdSegmentType
| ResourceGroupSegmentType
| ResourceProviderSegmentType
| UserSpecifiedSegmentType.

Record Segment : Type := mkSegment {
  Name : string;
  Type_ : SegmentType;
  FixedValue : option string;
  ExampleValue : string
}.

Definition StaticSegment (name staticValue exampleValue : string) : Segment :=
  mkSegment name StaticSegmentType (Some staticValue) exampleValue.
Definition SubscriptionIdSegment (name exampleValue : string) : Segment :=
  mkSegment name SubscriptionIdSegmentType None exampleValue.
Definition ResourceGroupSegment (name exampleValue : string) : Segment :=
  mkSegment name ResourceGroupSegmentType None exampleValue.
Definition ResourceProviderSegment (name resourceProvider exampleValue : string) : Segment :=
  mkSegment name ResourceProviderSegmentType (Some resourceProvider) exampleValue.
Definition UserSpecifiedSegment (name exampleValue : string) : Segment :=
  mkSegment name UserSpecifiedSegmentType None exampleValue.

Record ParseResult : Type := mkParseResult {
  Parsed : gmap string string;
  RawInput : string
}.

(** The errors of the ID code. The three shape errors are one category in
    the library, told apart by their message; [Parsing] is the wrapper
    [fmt.Errorf("parsing %q: %+v", input, err)] and [ExpectedString] is
    [fmt.Errorf("expected %q to be a string", key)]. *)
Inductive Error : Type :=
| WrongNumberOfComponents (input : string)
| SegmentMismatch (expected actual : string)
| SegmentNotSpecified (segmentName : string) (input : string)
| Parsing (input : string) (cause : Error)
| ExpectedString (key : string).

Definition NewSegmentNotSpecifiedError (segmentName : string) (input : ParseResult) : Error :=
  SegmentNotSpecified segmentName (RawInput input).

(** Modelled from the spec: the matching of one static segment of the
    library's parser, which is not among the sources. The component must
    equal the literal, case-insensitively if the segment is the
    resource-provider literal, or per the overall flag otherwise. *)
Definition literalMatches (insensitively : bool) (seg : Segment)
    (literal component : string) : bool :=
  match Type_ seg with
  | ResourceProviderSegmentType => strings.EqualFold component literal
  | _ => if insensitively then strings.EqualFold component literal
         else String.eqb component literal
  end.

(** Modelled from the spec: the positional matching of the path components
    against the segment list of the library's parser, which is not among
    the sources. A static segment takes a component equal to its literal
    (a mismatch is a segment-mismatch error naming the expected literal
    and the actual input); a subscription-id, resource-group or
    user-specified segment takes any non-empty component and captures it
    under its key (an empty or absent one is a segment-not-specified error
    naming the key); a wrong number of components is an error; nothing is
    returned on failure. *)
Fixpoint matchSegments (insensitively : bool) (raw : string)
    (segments : list Segment) (components : list string)
    (parsed : gmap string string) : Error + gmap string string :=
  match segments with
  | [] =>
      match components with
      | [] => inr parsed
      | _ :: _ => inl (WrongNumberOfComponents raw)
      end
  | seg :: segments' =>
      match FixedValue seg with
      | Some literal =>
          match components with
          | [] => inl (WrongNumberOfComponents raw)
          | c :: components' =>
              if literalMatches insensitively seg literal c
              then matchSegments insensitively raw segments' components' parsed
              else inl (SegmentMismatch literal c)
          end
      | None =>
          match components with
          | [] => inl (SegmentNotSpecified (Name seg) raw)
          | c :: components' =>
              if String.eqb c EmptyString
              then inl (SegmentNotSpecified (Name seg) raw)
              else matchSegments insensitively raw segments' components'
                     (<[Name seg := c]> parsed)
          end
      end
  end.

(** Modelled from the spec: [Parser.Parse(input, insensitively)] of the
    library, which is not among the sources. The input is split into the
    path components after its leading separator and matched against the
    segment list. The outcome is all or nothing: a parse result, or an
    error and no result. *)
Definition Parse (segments : list Segment) (input : string)
    (insensitively : bool) : Error + ParseResult :=
  match strings.Split input "/"%char with
  | EmptyString :: components =>
      match matchSegments insensitively input segments components ∅ with
      | inr parsed => inr (mkParseResult parsed input)
      | inl err => inl err
      end
  | _ => inl (WrongNumberOfComponents input)
  end.

End resourceids.

(** ** Package [reachabilityanalysisruns]: the Verifier Workspace ID *)

Module reachabilityanalysisruns.
Import resourceids.

Record VerifierWorkspaceId : Type := mkVerifierWorkspaceId {
  SubscriptionId : string;
  ResourceGroupName : string;
  NetworkManagerName : string;
  VerifierWorkspaceName : string
}.

(** [VerifierWorkspaceId{}]: every field the empty string. *)
Definition zeroId : VerifierWorkspaceId :=
  mkVerifierWorkspaceId EmptyString EmptyString EmptyString EmptyString.

Definition NewVerifierWorkspaceID
    (subscriptionId resourceGroupName networkManagerName verifierWorkspaceName : string)
    : VerifierWorkspaceId :=
  mkVerifierWorkspaceId subscriptionId resourceGroupName networkManagerName
    verifierWorkspaceName.

(** [id.ID()]: [fmt.Sprintf] with four [%s] verbs. *)
Definition ID (id : VerifierWorkspaceId) : string :=
  "/subscriptions/" +:+ SubscriptionId id +:+
  "/resourceGroups/" +:+ ResourceGroupName id +:+
  "/providers/Microsoft.Network/networkManagers/" +:+ NetworkManagerName id +:+
  "/verifierWorkspaces/" +:+ VerifierWorkspaceName id.

Definition Segments : list Segment :=
  [ StaticSegment "staticSubscriptions" "subscriptions" "subscriptions";
    SubscriptionIdSegment "subscriptionId" "12345678-1234-9876-4563-123456789012";
    StaticSegment "staticResourceGroups" "resourceGroups" "resourceGroups";
    ResourceGroupSegment "resourceGroupName" "example-resource-group";
    StaticSegment "staticProviders" "providers" "providers";
    ResourceProviderSegment "staticMicrosoftNetwork" "Microsoft.Network" "Microsoft.Network";
    StaticSegment "staticNetworkManagers" "networkManagers" "networkManagers";
    UserSpecifiedSegment "networkManagerName" "networkManagerName";
    StaticSegment "staticVerifierWorkspaces" "verifierWorkspaces" "verifierWorkspaces";
    UserSpecifiedSegment "verifierWorkspaceName" "verifierWorkspaceName" ].

(** The two-valued map index [v, ok = m[k]]: the zero value and [false]
    when the key is absent. *)
Definition index2 (m : gmap string string) (k : string) : string * bool :=
  match m !! k with
  | Some v => (v, true)
  | None => (EmptyString, false)
  end.

(** [id.FromParseResult(input)] has a pointer receiver: it assigns the
    fields of [id] one after the other and stops at the first absent key.
    The receiver after the call is returned next to the error. *)
Definition FromParseResult (id : VerifierWorkspaceId) (input : ParseResult)
    : VerifierWorkspaceId * option Error :=
  let '(v, ok) := index2 (Parsed input) "subscriptionId" in
  let id := mkVerifierWorkspaceId v (ResourceGroupName id)
              (NetworkManagerName id) (VerifierWorkspaceName id) in
  if negb ok
  then (id, Some (NewSegmentNotSpecifiedError "subscriptionId" input)) else
  let '(v, ok) := index2 (Parsed input) "resourceGroupName" in
  let id := mkVerifierWorkspaceId (SubscriptionId id) v
              (NetworkManagerName id) (VerifierWorkspaceName id) in
  if negb ok
  then (id, Some (NewSegmentNotSpecifiedError "resourceGroupName" input)) else
  let '(v, ok) := index2 (Parsed input) "networkManagerName" in
  let id := mkVerifierWorkspaceId (SubscriptionId id) (ResourceGroupName id)
              v (VerifierWorkspaceName id) in
  if negb ok
  then (id, Some (NewSegmentNotSpecifiedError "networkManagerName" input)) else
  let '(v, ok) := index2 (Parsed input) "verifierWorkspaceName" in
  let id := mkVerifierWorkspaceId (SubscriptionId id) (ResourceGroupName id)
              (NetworkManagerName id) v in
  if negb ok
  then (id, Some (NewSegmentNotSpecifiedError "verifierWorkspaceName" input)) else
  (id, None).

(** What the two parse functions do with the outcome of the parser; they
    differ in the flag they pass to the parser only. *)
Definition fromParserOutcome (input : string) (outcome : Error + ParseResult)
    : option VerifierWorkspaceId * option Error :=
  match outcome with
  | inl err => (None, Some (Parsing input err))
  | inr parsed =>
      match FromParseResult zeroId parsed with
      | (_, Some err) => (None, Some err)
      | (id, None) => (Some id, None)
      end
  end.

Definition parseWith (insensitively : bool) (input : string)
    : option VerifierWorkspaceId * option Error :=
  fromParserOutcome input (Parse Segments input insensitively).

Definition ParseVerifierWorkspaceID (input : string)
    : option VerifierWorkspaceId * option Error :=
  parseWith false input.


(** [ValidateVerifierWorkspaceID(input, key)]: the named results
    [warnings] and [errors] start nil; only [errors] is appended to. *)
Definition ValidateVerifierWorkspaceID (input : Value) (key : string)
    : list string * list Error :=
  let warnings : list string := [] in
  let errors : list Error := [] in
  match input with
  | VString v =>
      match ParseVerifierWorkspaceID v with
      | (_, Some err) => (warnings, errors ++ [err])
      | (_, None) => (warnings, errors)
      end
  | _ => (warnings, errors ++ [ExpectedString key])
  end.

End reachabilityanalysisruns.

(** ** Package [monitor]: the activity log alert resource *)

Module monitor.

(** *** Run-time panics *)

Inductive Panic : Type :=
| IndexOutOfRange (index length : nat)
| InterfaceConversion (got : Value) (want : string).

Inductive Outcome (A : Type) : Type :=
| Returns (a : A)
| Panics (p : Panic).
Arguments Returns {A} a.
Arguments Panics {A} p.

#[global] Instance Outcome_ret : MRet Outcome := fun A a => Returns a.
#[global] Instance Outcome_bind : MBind Outcome := fun A B k m =>
  match m with
  | Returns a => k a
  | Panics p => Panics p
  end.

(** [input[i]] on a slice. *)
Definition sliceIndex (input : list Value) (i : nat) : Outcome Value :=
  match input !! i with
  | Some v => Returns v
  | None => Panics (IndexOutOfRange i (length input))
  end.

(** [x.(map[string]interface{})] and [x.(string)], the one-valued type
    assertions, which panic on any other dynamic type and on nil. *)
Definition assertMap (x : Value) : Outcome (gmap string Value) :=
  match x with
  | VMap m => Returns m
  | _ => Panics (InterfaceConversion x "map[string]interface {}")
  end.

Definition assertString (x : Value) : Outcome string :=
  match x with
  | VString s => Returns s
  | _ => Panics (InterfaceConversion x "string")
  end.

(** [v[k]] on a [map[string]interface{}]: nil when the key is absent. *)
Definition mapIndex (v : gmap string Value) (k : string) : Value :=
  default VNil (v !! k).

(** *** The API model ([insights]) *)

(** A leaf condition; the two fields are pointers to strings. *)
Record LeafCondition : Type := mkLeafCondition {
  Field : option string;
  Equals : option string
}.

Record AllOfCondition : Type := mkAllOfCondition {
  AllOf : option (list LeafCondition)
}.

(** *** expand *)

(** The block that [expandMonitorActivityLogAlertCriteria] repeats for
    each field: when the value is not the empty string, a condition
    with [Field: utils.String(field)] and [Equals: utils.String(value)]
    is appended to [conditions]. *)
Definition appendIfSet (conditions : list LeafCondition)
    (field value : string) : list LeafCondition :=
  if negb (String.eqb value EmptyString)
  then conditions ++ [mkLeafCondition (Some field) (Some value)]
  else conditions.

Definition expandMonitorActivityLogAlertCriteria (input : list Value)
    : Outcome AllOfCondition :=
  let conditions : list LeafCondition := [] in
  v ← sliceIndex input 0 ≫= assertMap;
  category ← assertString (mapIndex v "category");
  let conditions := appendIfSet conditions "category" category in
  op ← assertString (mapIndex v "operation_name");
  let conditions := appendIfSet conditions "operationName" op in
  caller ← assertString (mapIndex v "caller");
  let conditions := appendIfSet conditions "caller" caller in
  level ← assertString (mapIndex v "level");
  let conditions := appendIfSet conditions "level" level in
  resourceProvider ← assertString (mapIndex v "resource_provider");
  let conditions := appendIfSet conditions "resourceProvider" resourceProvider in
  resourceType ← assertString (mapIndex v "resource_type");
  let conditions := appendIfSet conditions "resourceType" resourceType in
  resourceGroup ← assertString (mapIndex v "resource_group");
  let conditions := appendIfSet conditions "resourceGroup" resourceGroup in
  id ← assertString (mapIndex v "resource_id");
  let conditions := appendIfSet conditions "resourceId" id in
  status ← assertString (mapIndex v "status");
  let conditions := appendIfSet conditions "status" status in
  subStatus ← assertString (mapIndex v "sub_status");
  let conditions := appendIfSet conditions "subStatus" subStatus in
  recommendationType ← assertString (mapIndex v "recommendation_type");
  let conditions :=
    appendIfSet conditions "properties.recommendationType" recommendationType in
  recommendationCategory ← assertString (mapIndex v "recommendation_category");
  let conditions :=
    appendIfSet conditions "properties.recommendationCategory" recommendationCategory in
  recommendationImpact ← assertString (mapIndex v "recommendation_impact");
  let conditions :=
    appendIfSet conditions "properties.recommendationImpact" recommendationImpact in
  mret (mkAllOfCondition (Some conditions)).

(** *** flatten *)

(** The body of the loop of [flattenMonitorActivityLogAlertCriteria]: the
    switch on the lower-cased field name, its cases tried in order. *)
Definition flattenCondition (result : gmap string Value)
    (condition : LeafCondition) : gmap string Value :=
  match Field condition, Equals condition with
  | Some field, Some equals =>
      let tag := strings.ToLower field in
      if String.eqb tag "operationname" then
        <["operation_name" := VString equals]> result
      else if String.eqb tag "resourceprovider" then
        <["resource_provider" := VString equals]> result
      else if String.eqb tag "resourcetype" then
        <["resource_type" := VString equals]> result
      else if String.eqb tag "resourcegroup" then
        <["resource_group" := VString equals]> result
      else if String.eqb tag "resourceid" then
        <["resource_id" := VString equals]> result
      else if String.eqb tag "substatus" then
        <["sub_status" := VString equals]> result
      else if String.eqb tag "properties.recommendationtype" then
        <["recommendation_type" := VString equals]> result
      else if String.eqb tag "properties.recommendationcategory" then
        <["recommendation_category" := VString equals]> result
      else if String.eqb tag "properties.recommendationimpact" then
        <["recommendation_impact" := VString equals]> result
      else if String.eqb tag "caller" || String.eqb tag "category"
              || String.eqb tag "level" || String.eqb tag "status" then
        <[field := VString equals]> result
      else result
  | _, _ => result
  end.

Definition flattenMonitorActivityLogAlertCriteria (input : option AllOfCondition)
    : list Value :=
  let result : gmap string Value := ∅ in
  match input with
  | None => [VMap result]
  | Some c =>
      match AllOf c with
      | None => [VMap result]
      | Some conditions => [VMap (foldl flattenCondition result conditions)]
      end
  end.

(** *** delete *)

(** An [error] value: one made by a collaborator (opaque here), or the
    wrapper [fmt.Errorf("Error deleting activity log alert %q (resource
    group %q): %+v", name, resourceGroup, err)]. *)
Inductive Error : Type :=
| Opaque (message : string)
| ErrorDeleting (name resourceGroup : string) (cause : Error).

(** [autorest.Response]: an embedded [*http.Response], nil when no
    response was received. *)
Record Response : Type := mkResponse {
  StatusCode : option Z
}.

(** Modelled from the spec: [response.WasNotFound] of the vendored helper
    package, which is not among the sources; the distinguishable
    not-found status of a response is HTTP 404. *)
Definition WasNotFound (resp : Response) : bool :=
  match StatusCode resp with
  | Some code => (code =? 404)%Z
  | None => false
  end.

(** [azure.ResourceID], as far as the delete hook reads it. *)
Record ResourceID : Type := mkResourceID {
  ResourceGroup : string;
  Path : gmap string string
}.

(** The state handle [*schema.ResourceData], as far as the hook can
    change what the framework reads back: the ID ([d.Id()], [d.SetId])
    and the attributes ([d.Set]). *)
Record ResourceData : Type := mkResourceData {
  Id : string;
  Attributes : gmap string Value
}.

(** [meta]: the client of the alerts API. [Delete] answers with the
    response and an error or nil. *)
Record Client : Type := mkClient {
  Delete : string -> string -> Response * option Error
}.

Section hooks.

(** [azure.ParseAzureResourceID] is not among the sources; the hook is
    defined over any such function returning a parsed ID or an error. *)
Variable ParseAzureResourceID : string -> Error + ResourceID.

(** The hook returns an [error]; the state handle after the call is
    returned next to it. *)
Definition resourceMonitorActivityLogAlertDelete (d : ResourceData)
    (meta : Client) : ResourceData * option Error :=
  match ParseAzureResourceID (Id d) with
  | inl err => (d, Some err)
  | inr id =>
      let resourceGroup := ResourceGroup id in
      let name := default EmptyString (Path id !! "activityLogAlerts") in
      match Delete meta resourceGroup name with
      | (resp, Some err) =>
          if negb (WasNotFound resp)
          then (d, Some (ErrorDeleting name resourceGroup err))
          else (d, None)
      | (_, None) => (d, None)
      end
  end.

End hooks.

(** *** expand and flatten of the action block *)

(** An action group of the API: a pointer to the ID of the group and a map
    to string pointers. The request and the response type have these two
    fields alike. *)
Record ActionGroup : Type := mkActionGroup {
  ActionGroupID : option string;
  WebhookProperties : gmap string (option string)
}.

Record ActionList : Type := mkActionList {
  ActionGroups : option (list ActionGroup)
}.

(** The loop over [pVal.(map[string]interface{})] that fills [props] with
    [utils.String(pv.(string))]. Go ranges over a map in no fixed order:
    when several values are not strings, which one the panic names is not
    determined; the fold names one of them. *)
Definition expandWebhookProperties (pVal : gmap string Value)
    : Outcome (gmap string (option string)) :=
  map_fold (fun pk pv acc =>
              props ← acc;
              s ← assertString pv;
              mret (<[pk := Some s]> props))
           (Returns ∅) pVal.

(** The body of the loop of [expandMonitorActivityLogAlertAction]. *)
Definition expandActionItem (actions : list ActionGroup) (item : Value)
    : Outcome (list ActionGroup) :=
  v ← assertMap item;
  agID ← assertString (mapIndex v "action_group_id");
  if negb (String.eqb agID EmptyString) then
    props ← match v !! "webhook_properties" with
            | Some pVal => assertMap pVal ≫= expandWebhookProperties
            | None => Returns ∅
            end;
    mret (actions ++ [mkActionGroup (Some agID) props])
  else mret actions.

Definition expandMonitorActivityLogAlertAction (input : list Value)
    : Outcome ActionList :=
  actions ← foldl (fun acc item => actions ← acc; expandActionItem actions item)
                  (Returns []) input;
  mret (mkActionList (Some actions)).

(** The loop over [action.WebhookProperties] that copies the values that
    are not nil into [props], a [map[string]string]; as a [Value] it is a
    map of strings, not told apart from a [map[string]interface{}] that
    holds strings. *)
Definition flattenWebhookProperties (properties : gmap string (option string))
    : gmap string Value :=
  map_fold (fun pk pv props =>
              match pv with
              | Some s => <[pk := VString s]> props
              | None => props
              end)
           ∅ properties.

(** The body of the loop of [flattenMonitorActivityLogAlertAction]. *)
Definition flattenActionGroup (action : ActionGroup) : Value :=
  let v : gmap string Value := ∅ in
  let v := match ActionGroupID action with
           | Some agID => <["action_group_id" := VString agID]> v
           | None => v
           end in
  let props := flattenWebhookProperties (WebhookProperties action) in
  let v := <["webhook_properties" := VMap props]> v in
  VMap v.

Definition flattenMonitorActivityLogAlertAction (input : option ActionList)
    : list Value :=
  let result : list Value := [] in
  match input with
  | None => result
  | Some l =>
      match ActionGroups l with
      | None => result
      | Some groups =>
          foldl (fun result action => result ++ [flattenActionGroup action])
                result groups
      end
  end.

(** *** read *)

(** [insights.AlertRuleProperties] and [insights.ActivityLogAlertResource],
    as far as the hooks read and fill them ([AlertID] is the field [ID],
    [AlertResponse] the embedded response). *)
Record AlertRuleProperties : Type := mkAlertRuleProperties {
  Scopes : option (list string);
  Enabled : option bool;
  Condition : option AllOfCondition;
  Actions : option ActionList;
  Description : option string
}.

Record ActivityLogAlertResource : Type := mkActivityLogAlertResource {
  AlertResponse : Response;
  AlertID : option string;
  Location : option string;
  AlertProperties : option AlertRuleProperties;
  Tags : gmap string (option string)
}.

(** The errors the read hook returns: one of a collaborator as it is, or
    one of the wrappers [fmt.Errorf("Error getting activity log alert %q
    (resource group %q): %+v", name, resourceGroup, err)] and
    [fmt.Errorf("Error setting `field`: %+v", err)]. *)
Inductive ReadError : Type :=
| Passed (err : Error)
| ErrorGetting (name resourceGroup : string) (cause : Error)
| ErrorSetting (field : string) (cause : Error).

(** [d.SetId(id)]. *)
Definition SetId (d : ResourceData) (id : string) : ResourceData :=
  mkResourceData id (Attributes d).

(** A [*bool] and a [*string] handed to [d.Set] as an [interface{}]. *)
Definition boolPointer (p : option bool) : Value :=
  match p with Some b => VBool b | None => VNil end.

Definition stringPointer (p : option string) : Value :=
  match p with Some s => VString s | None => VNil end.

Section read.

(** The collaborators of the read hook that are not among the sources:
    [azure.ParseAzureResourceID], [utils.ResponseWasNotFound],
    [utils.FlattenStringSlice], [tags.FlattenAndSet], the [Get] of the
    client ([meta]) and the [d.Set] of the framework, which returns the
    state handle after the call and an error or nil. *)
Variable ParseAzureResourceID : string -> Error + ResourceID.
Variable ResponseWasNotFound : Response -> bool.
Variable FlattenStringSlice : option (list string) -> Value.
Variable FlattenAndSet :
  ResourceData -> gmap string (option string) -> ResourceData * option Error.
Variable Get : string -> string -> ActivityLogAlertResource * option Error.
Variable Set_ : ResourceData -> string -> Value -> ResourceData * option Error.

(** The part of the read hook under [if alert := resp.AlertRuleProperties;
    alert != nil]: two calls of [d.Set] whose error is dropped, three whose
    error is returned wrapped. The result is the state handle and the
    error to return, or none to go on. *)
Definition setAlertProperties (d : ResourceData) (alert : AlertRuleProperties)
    : ResourceData * option ReadError :=
  let d := fst (Set_ d "enabled" (boolPointer (Enabled alert))) in
  let d := fst (Set_ d "description" (stringPointer (Description alert))) in
  match Set_ d "scopes" (FlattenStringSlice (Scopes alert)) with
  | (d, Some err) => (d, Some (ErrorSetting "scopes" err))
  | (d, None) =>
      match Set_ d "criteria"
              (VList (flattenMonitorActivityLogAlertCriteria (Condition alert))) with
      | (d, Some err) => (d, Some (ErrorSetting "criteria" err))
      | (d, None) =>
          match Set_ d "action"
                  (VList (flattenMonitorActivityLogAlertAction (Actions alert))) with
          | (d, Some err) => (d, Some (ErrorSetting "action" err))
          | (d, None) => (d, None)
          end
      end
  end.

Definition resourceMonitorActivityLogAlertRead (d : ResourceData)
    : ResourceData * option ReadError :=
  match ParseAzureResourceID (Id d) with
  | inl err => (d, Some (Passed err))
  | inr id =>
      let resourceGroup := ResourceGroup id in
      let name := default EmptyString (Path id !! "activityLogAlerts") in
      match Get resourceGroup name with
      | (resp, Some err) =>
          if ResponseWasNotFound (AlertResponse resp)
          then (SetId d EmptyString, None)
          else (d, Some (ErrorGetting name resourceGroup err))
      | (resp, None) =>
          let d := fst (Set_ d "name" (VString name)) in
          let d := fst (Set_ d "resource_group_name" (VString resourceGroup)) in
          let '(d, stop) :=
            match AlertProperties resp with
            | Some alert => setAlertProperties d alert
            | None => (d, None)
            end in
          match stop with
          | Some err => (d, Some err)
          | None =>
              match FlattenAndSet d (Tags resp) with
              | (d, Some err) => (d, Some (Passed err))
              | (d, None) => (d, None)
              end
          end
      end
  end.

End read.

(** *** create and update *)

(** The errors the create-and-update hook returns: the wrappers of its
    three [fmt.Errorf] calls, [tf.ImportAsExistsError(resourceName, id)],
    the error of the second Get as it is, and what the read hook
    returns. *)
Inductive CreateError : Type :=
| ErrorCheckingPresence (name resourceGroup : string) (cause : Error)
| ImportAsExistsError (resourceName id : string)
| ErrorCreatingOrUpdating (name resourceGroup : string) (cause : Error)
| ErrorReading (cause : Error)
| IDEmpty (name resourceGroup : string)
| FromRead (err : ReadError).

(** [x.(bool)] and [x.([]interface{})]. *)
Definition assertBool (x : Value) : Outcome bool :=
  match x with
  | VBool b => Returns b
  | _ => Panics (InterfaceConversion x "bool")
  end.

Definition assertList (x : Value) : Outcome (list Value) :=
  match x with
  | VList l => Returns l
  | _ => Panics (InterfaceConversion x "[]interface {}")
  end.

Section createUpdate.

(** The service behind the client: each call takes the state of the
    service and returns the state after it with its answer. *)
Variable World : Type.
Variable clientGet :
  World -> string -> string -> World * (ActivityLogAlertResource * option Error).
Variable clientCreateOrUpdate :
  World -> string -> string -> ActivityLogAlertResource -> World * option Error.

(** The collaborators that are not among the sources: of the framework
    [d.Get], [d.Set], [d.IsNewResource] and the list of a [*schema.Set]
    (the assertion to the set included), and of the provider
    [azure.ParseAzureResourceID], [azure.NormalizeLocation],
    [utils.ResponseWasNotFound], [utils.ExpandStringSlice],
    [utils.FlattenStringSlice], [tags.Expand] and [tags.FlattenAndSet];
    those that assert the type of what they are given can panic. *)
Variable IsNewResource : ResourceData -> bool.
Variable Get_ : ResourceData -> string -> Value.
Variable Set_ : ResourceData -> string -> Value -> ResourceData * option Error.
Variable setList : Value -> Outcome (list Value).
Variable ParseAzureResourceID : string -> Error + ResourceID.
Variable NormalizeLocation : string -> string.
Variable ResponseWasNotFound : Response -> bool.
Variable ExpandStringSlice : list Value -> Outcome (option (list string)).
Variable FlattenStringSlice : option (list string) -> Value.
Variable tagsExpand : gmap string Value -> Outcome (gmap string (option string)).
Variable FlattenAndSet :
  ResourceData -> gmap string (option string) -> ResourceData * option Error.

(** The check under [if d.IsNewResource()]: the state of the service
    after the Get, and the error to return or none to go on. *)
Definition checkExisting (w : World) (name resourceGroup : string)
    : World * option CreateError :=
  let '(w, (existing, err)) := clientGet w resourceGroup name in
  let failed :=
    match err with
    | Some err =>
        if negb (ResponseWasNotFound (AlertResponse existing))
        then Some (ErrorCheckingPresence name resourceGroup err)
        else None
    | None => None
    end in
  match failed with
  | Some err => (w, Some err)
  | None =>
      match AlertID existing with
      | Some id =>
          if negb (String.eqb id EmptyString)
          then (w, Some (ImportAsExistsError "azurerm_monitor_activity_log_alert" id))
          else (w, None)
      | None => (w, None)
      end
  end.

(** The request the hook builds from the configuration, its reads and
    calls in the order of the source. *)
Definition buildParameters (d : ResourceData) : Outcome ActivityLogAlertResource :=
  enabled ← assertBool (Get_ d "enabled");
  description ← assertString (Get_ d "description");
  scopesRaw ← setList (Get_ d "scopes");
  criteriaRaw ← assertList (Get_ d "criteria");
  actionRaw ← setList (Get_ d "action");
  t ← assertMap (Get_ d "tags");
  expandedTags ← tagsExpand t;
  let location := NormalizeLocation "Global" in
  scopes ← ExpandStringSlice scopesRaw;
  condition ← expandMonitorActivityLogAlertCriteria criteriaRaw;
  actions ← expandMonitorActivityLogAlertAction actionRaw;
  mret (mkActivityLogAlertResource (mkResponse None) None (Some location)
          (Some (mkAlertRuleProperties scopes (Some enabled) (Some condition)
                   (Some actions) (Some description)))
          expandedTags).

(** The hook returns an [error]; the state handle after the call is
    returned next to it. *)
Definition resourceMonitorActivityLogAlertCreateUpdate (w : World) (d : ResourceData)
    : Outcome (ResourceData * option CreateError) :=
  name ← assertString (Get_ d "name");
  resourceGroup ← assertString (Get_ d "resource_group_name");
  let '(w, stop) :=
    if IsNewResource d then checkExisting w name resourceGroup else (w, None) in
  match stop with
  | Some err => mret (d, Some err)
  | None =>
      parameters ← buildParameters d;
      match clientCreateOrUpdate w resourceGroup name parameters with
      | (w, Some err) =>
          mret (d, Some (ErrorCreatingOrUpdating name resourceGroup err))
      | (w, None) =>
          let '(w, (read, err)) := clientGet w resourceGroup name in
          match err with
          | Some err => mret (d, Some (ErrorReading err))
          | None =>
              match AlertID read with
              | None => mret (d, Some (IDEmpty name resourceGroup))
              | Some id =>
                  let d := SetId d id in
                  let '(d, err) :=
                    resourceMonitorActivityLogAlertRead ParseAzureResourceID
                      ResponseWasNotFound FlattenStringSlice FlattenAndSet
                      (fun resourceGroup name => snd (clientGet w resourceGroup name))
                      Set_ d in
                  mret (d, FromRead <$> err)
              end
          end
      end
  end.

End createUpdate.

End monitor.

Import resourceids reachabilityanalysisruns monitor.

(** * Vocabulary of the properties *)

(** The components of a path, joined by the separator. *)
Fixpoint joinComponents (cs : list string) : string :=
  match cs with
  | [] => EmptyString
  | [c] => c
  | c :: cs' => c +:+ String "/" (joinComponents cs')
  end.

(** A component that a dynamic segment accepts and that survives the
    splitting of a path: not empty, without a separator. *)
Definition validComponent (s : string) : Prop :=
  s <> EmptyString /\ strings.ContainsByte s "/" = false.

Definition validId (id : VerifierWorkspaceId) : Prop :=
  validComponent (SubscriptionId id) /\
  validComponent (ResourceGroupName id) /\
  validComponent (NetworkManagerName id) /\
  validComponent (VerifierWorkspaceName id).

(** The keys that [FromParseResult] reads, in the order it reads them. *)
Definition requiredKeys : list string :=
  ["subscriptionId"; "resourceGroupName"; "networkManagerName"; "verifierWorkspaceName"].

(** The field of an ID that [FromParseResult] fills from a key. *)
Definition fieldOf (id : VerifierWorkspaceId) (key : string) : string :=
  if String.eqb key "subscriptionId" then SubscriptionId id
  else if String.eqb key "resourceGroupName" then ResourceGroupName id
  else if String.eqb key "networkManagerName" then NetworkManagerName id
  else if String.eqb key "verifierWorkspaceName" then VerifierWorkspaceName id
  else EmptyString.



(** The criteria fields of the schema with the field name each is sent
    under, in the order [expandMonitorActivityLogAlertCriteria] reads
    them. *)
Definition criteriaFields : list (string * string) :=
  [ ("category", "category");
    ("operation_name", "operationName");
    ("caller", "caller");
    ("level", "level");
    ("resource_provider", "resourceProvider");
    ("resource_type", "resourceType");
    ("resource_group", "resourceGroup");
    ("resource_id", "resourceId");
    ("status", "status");
    ("sub_status", "subStatus");
    ("recommendation_type", "properties.recommendationType");
    ("recommendation_category", "properties.recommendationCategory");
    ("recommendation_impact", "properties.recommendationImpact") ].

Definition criteriaKeys : list string := map fst criteriaFields.

(** A criteria map as the schema hands it over: a string under every
    criteria key. *)
Definition hasAllCriteria (v : gmap string Value) : Prop :=
  forall k, In k criteriaKeys -> exists s, v !! k = Some (VString s).

(** What the spec asks of expand: one condition for each criteria field
    whose value is a non-empty string, none for the others. *)
Definition conditionOf (v : gmap string Value) (kf : string * string) : list LeafCondition :=
  match v !! kf.1 with
  | Some (VString s) =>
      if String.eqb s EmptyString then []
      else [mkLeafCondition (Some kf.2) (Some s)]
  | _ => []
  end.

Definition expectedConditions (v : gmap string Value) : list LeafCondition :=
  flat_map (conditionOf v) criteriaFields.

(** The input of the scenario as written, with two keys only, and as the
    schema completes it, every other criteria field the empty string. *)
Definition scenarioLiteral : gmap string Value :=
  <["category" := VString "Administrative"]>
    (<["operation_name" := VString EmptyString]> ∅).

Definition scenarioCriteria : gmap string Value :=
  <["category" := VString "Administrative"]>
    (list_to_map (map (fun k => (k, VString EmptyString)) criteriaKeys)).

(** The lower-cased field names that flatten renames, each with the
    configuration key it is stored under, and those it stores under the
    field name of the response. *)
Definition renamedFields : list (string * string) :=
  [ ("operationname", "operation_name");
    ("resourceprovider", "resource_provider");
    ("resourcetype", "resource_type");
    ("resourcegroup", "resource_group");
    ("resourceid", "resource_id");
    ("substatus", "sub_status");
    ("properties.recommendationtype", "recommendation_type");
    ("properties.recommendationcategory", "recommendation_category");
    ("properties.recommendationimpact", "recommendation_impact") ].

Definition passedFields : list string := ["caller"; "category"; "level"; "status"].

Definition recognizedFields : list string := map fst renamedFields ++ passedFields.

Definition leaf (field equals : string) : LeafCondition :=
  mkLeafCondition (Some field) (Some equals).

(** Whether [c] is the byte [d] or, when [d] is one of 'a'..'z', its
    upper-case letter. *)
Definition letterOf (c d : ascii) : bool :=
  Ascii.eqb c d
  || ((97 <=? N_of_ascii d) && (N_of_ascii d <=? 122)
      && (N_of_ascii c + 32 =? N_of_ascii d))%N.

(** Whether [field] is [name] with any of its lower-case letters written
    in upper case. *)
Fixpoint recased (field name : string) : bool :=
  match field, name with
  | EmptyString, EmptyString => true
  | String c field', String d name' => letterOf c d && recased field' name'
  | _, _ => false
  end.

(** The field name "resourceId" written with U+0130, the capital I with a
    dot above (bytes C4 B0), which [strings.ToLower] maps to 'i'. *)
Definition dottedResourceId : string :=
  "resource" +:+ String "196" (String "176" "d").

(** Whether a condition is on the field [field]. *)
Definition fieldIs (field : string) (c : LeafCondition) : bool :=
  match Field c with
  | Some f => String.eqb f field
  | None => false
  end.

(** A stored alert ID, a parser that reads it, and a client whose Delete
    answers 404 with an error: the resource is gone already. *)
Definition sampleAlertId : string :=
  "/subscriptions/sub-1/resourceGroups/group-1/providers/microsoft.insights/activityLogAlerts/alert-1".

Definition sampleParse (input : string) : monitor.Error + ResourceID :=
  if String.eqb input sampleAlertId
  then inr (mkResourceID "group-1" {[ "activityLogAlerts" := "alert-1" ]})
  else inl (Opaque "cannot parse Azure ID").

Definition goneClient : Client :=
  mkClient (fun _ _ => (mkResponse (Some 404%Z), Some (Opaque "not found"))).

Definition failingClient : Client :=
  mkClient (fun _ _ => (mkResponse (Some 500%Z), Some (Opaque "internal server error"))).

Definition sampleData : ResourceData :=
  mkResourceData sampleAlertId {[ "name" := VString "alert-1" ]}.

(** The alert name the hook reads from a parsed ID. *)
Definition alertName (id : ResourceID) : string :=
  default EmptyString (Path id !! "activityLogAlerts").

(** The mapping that [FromParseResult] reads an ID back from: its four
    fields under their segment keys. *)
Definition parsedOf (id : VerifierWorkspaceId) : gmap string string :=
  <["subscriptionId" := SubscriptionId id]>
    (<["resourceGroupName" := ResourceGroupName id]>
       (<["networkManagerName" := NetworkManagerName id]>
          (<["verifierWorkspaceName" := VerifierWorkspaceName id]> ∅))).

(** The path component of a segment: its literal, or else the value
    stored under its name. *)
Definition renderSegment (parsed : gmap string string) (seg : Segment) : option string :=
  match FixedValue seg with
  | Some literal => Some literal
  | None => parsed !! Name seg
  end.

Definition renderSegments (parsed : gmap string string) (segs : list Segment)
    : option string :=
  components ← mapM (renderSegment parsed) segs;
  Some (String "/" (joinComponents components)).

(** Whether a criteria value is a string other than the empty one. *)
Definition isSetString (x : Value) : bool :=
  match x with
  | VString s => negb (String.eqb s EmptyString)
  | _ => false
  end.

(** The criteria of a map that are set: its entries under the criteria
    keys whose value is a non-empty string. *)
Definition setCriteria (v : gmap string Value) : gmap string Value :=
  filter (fun kx => kx.1 ∈ criteriaKeys /\ isSetString kx.2 = true) v.

(** Whether flatten stores a condition: both pointers set and the
    lower-cased field name recognized. *)
Definition isStored (c : LeafCondition) : bool :=
  match Field c, Equals c with
  | Some field, Some _ =>
      existsb (String.eqb (strings.ToLower field)) recognizedFields
  | _, _ => false
  end.

(** The key flatten stores a recognized field under. *)
Definition configKey (field : string) : string :=
  default field ((list_to_map renamedFields : gmap string string)
                   !! strings.ToLower field).

(** What one step of expand leaves in the map that flatten builds. *)
Definition storeIfSet (key s : string) (m : gmap string Value) : gmap string Value :=
  if String.eqb s EmptyString then m else <[key := VString s]> m.

(** A webhook-properties map as the schema hands it over: strings only. *)
Definition allStrings (m : gmap string Value) : Prop :=
  forall k x, m !! k = Some x -> exists s, x = VString s.

(** The string pointer expand makes of a webhook property. *)
Definition stringPointerOf (x : Value) : option (option string) :=
  match x with
  | VString s => Some (Some s)
  | _ => None
  end.

(** An item of the action list that expand can read: a map with a string
    under "action_group_id" and, unless that string is empty, with
    "webhook_properties" absent or a map of strings. *)
Definition readableAction (item : Value) : Prop :=
  exists v agID,
    item = VMap v /\ v !! "action_group_id" = Some (VString agID) /\
    (agID = EmptyString \/ v !! "webhook_properties" = None \/
     exists m, v !! "webhook_properties" = Some (VMap m) /\ allStrings m).

(** The action group expand makes of an item, none for an item without a
    group ID. *)
Definition expectedActionGroup (item : Value) : option ActionGroup :=
  match item with
  | VMap v =>
      match v !! "action_group_id" with
      | Some (VString agID) =>
          if String.eqb agID EmptyString then None
          else Some (mkActionGroup (Some agID)
                       match v !! "webhook_properties" with
                       | Some (VMap m) => omap stringPointerOf m
                       | _ => ∅
                       end)
      | _ => None
      end
  | _ => None
  end.

(** The entry flatten makes of an action group. *)
Definition expectedActionEntry (action : ActionGroup) : Value :=
  VMap (<["webhook_properties" :=
            VMap (omap (fun pv : option string => VString <$> pv)
                       (WebhookProperties action))]>
          match ActionGroupID action with
          | Some agID => <["action_group_id" := VString agID]> ∅
          | None => ∅
          end).

(** An item as flatten writes it: a non-empty group ID and a map of
    strings, and no other key. *)
Definition canonicalAction (item : Value) : Prop :=
  exists agID m,
    agID <> EmptyString /\ allStrings m /\
    item = VMap (<["webhook_properties" := VMap m]>
                   (<["action_group_id" := VString agID]> ∅)).

(** The loop of expand over its items, from any list of actions. *)
Definition expandActionLoop (start : Outcome (list ActionGroup)) (input : list Value)
    : Outcome (list ActionGroup) :=
  foldl (fun acc item => actions ← acc; expandActionItem actions item) start input.

(** Three action items: one with a webhook property, one with an empty
    group ID and a broken properties value, and one without properties. *)
Definition sampleActions : list Value :=
  [ VMap (<["webhook_properties" := VMap (<["from" := VString "source"]> ∅)]>
            (<["action_group_id" := VString "group-a"]> ∅));
    VMap (<["webhook_properties" := VInt 7]>
            (<["action_group_id" := VString EmptyString]> ∅));
    VMap (<["action_group_id" := VString "group-b"]> ∅) ].

(** Whether the read hook finds the resource gone: the stored ID parses
    and Get answers with an error and a not-found response. *)
Definition foundGone (parse : string -> monitor.Error + ResourceID)
    (notFound : Response -> bool)
    (get : string -> string -> ActivityLogAlertResource * option monitor.Error)
    (d : ResourceData) : bool :=
  match parse (Id d) with
  | inr id =>
      match get (ResourceGroup id) (alertName id) with
      | (resp, Some _) => notFound (AlertResponse resp)
      | (_, None) => false
      end
  | inl _ => false
  end.

(** A [d.Set] that stores the value under the key and reports no error,
    and a [tags.FlattenAndSet] that stores the tags with it. *)
Definition storeAttribute (d : ResourceData) (key : string) (value : Value)
    : ResourceData * option monitor.Error :=
  (mkResourceData (Id d) (<[key := value]> (Attributes d)), None).

Definition storeTags (d : ResourceData) (tags : gmap string (option string))
    : ResourceData * option monitor.Error :=
  storeAttribute d "tags" (VMap (omap (fun pv : option string => VString <$> pv) tags)).

Definition sampleFlattenStringSlice (input : option (list string)) : Value :=
  VList (map VString (default [] input)).

(** An alert as Get returns it, and clients that find it, find it gone, or
    fail. *)
Definition sampleAlert : AlertRuleProperties :=
  mkAlertRuleProperties (Some ["/subscriptions/sub-1"]) (Some true)
    (Some (mkAllOfCondition (Some [leaf "category" "Administrative"])))
    (Some (mkActionList (Some [mkActionGroup (Some "group-a") ∅])))
    (Some "an alert").

Definition getFound (resourceGroup name : string)
    : ActivityLogAlertResource * option monitor.Error :=
  (mkActivityLogAlertResource (mkResponse (Some 200%Z)) (Some sampleAlertId)
     (Some "global") (Some sampleAlert) ∅, None).

Definition getGone (resourceGroup name : string)
    : ActivityLogAlertResource * option monitor.Error :=
  (mkActivityLogAlertResource (mkResponse (Some 404%Z)) None None None ∅,
   Some (Opaque "not found")).

(** A small service and framework to run the create-and-update hook in:
    the state of the service says whether the alert exists; [d.Get] reads
    the attributes; a set is handed over as its list. *)
Definition sampleClientGet (exists_ : bool) (resourceGroup name : string)
    : bool * (ActivityLogAlertResource * option monitor.Error) :=
  (exists_, if exists_ then getFound resourceGroup name else getGone resourceGroup name).

Definition sampleCreateOrUpdate (exists_ : bool) (resourceGroup name : string)
    (parameters : ActivityLogAlertResource) : bool * option monitor.Error :=
  (true, None).

Definition sampleGet_ (d : ResourceData) (key : string) : Value :=
  default VNil (Attributes d !! key).

Definition sampleExpandStringSlice (input : list Value)
    : Outcome (option (list string)) :=
  Returns (Some (omap (fun x => match x with VString s => Some s | _ => None end) input)).

Definition sampleTagsExpand (t : gmap string Value)
    : Outcome (gmap string (option string)) :=
  Returns (omap stringPointerOf t).

Definition sampleConfig : ResourceData :=
  mkResourceData EmptyString
    (<["name" := VString "alert-1"]>
       (<["resource_group_name" := VString "group-1"]>
          (<["enabled" := VBool true]>
             (<["description" := VString "an alert"]>
                (<["scopes" := VList [VString "/subscriptions/sub-1"]]>
                   (<["criteria" := VList [VMap scenarioCriteria]]>
                      (<["action" := VList sampleActions]>
                         (<["tags" := VMap ∅]> ∅)))))))).

(** * Properties *)

(** ** Path strings *)

Lemma Split_no_sep (s : string) (sep : ascii) :
  strings.ContainsByte s sep = false -> strings.Split s sep = [s].
Proof.
  induction s as [|c s IH]; simpl; [reflexivity|].
  intros H. apply orb_false_iff in H as [Hc Hs].
  rewrite Hc, (IH Hs). reflexivity.
Qed.

Lemma Split_app_sep (a rest : string) (sep : ascii) :
  strings.ContainsByte a sep = false ->
  strings.Split (a +:+ String sep rest) sep = a :: strings.Split rest sep.
Proof.
  induction a as [|c a IH]; simpl; intros H.
  - rewrite Ascii.eqb_refl. reflexivity.
  - apply orb_false_iff in H as [Hc Ha].
    rewrite Hc, (IH Ha). reflexivity.
Qed.

Lemma Split_joinComponents (c : string) (cs : list string) :
  Forall (fun s => strings.ContainsByte s "/" = false) (c :: cs) ->
  strings.Split (joinComponents (c :: cs)) "/" = c :: cs.
Proof.
  revert c. induction cs as [|c' cs IH]; intros c H.
  - apply Split_no_sep. by inversion H.
  - inversion H as [|? ? Hc Hcs]; subst.
    change (joinComponents (c :: c' :: cs))
      with (c +:+ String "/" (joinComponents (c' :: cs))).
    rewrite (Split_app_sep _ _ _ Hc), (IH _ Hcs). reflexivity.
Qed.

Lemma ID_joinComponents (id : VerifierWorkspaceId) :
  ID id = String "/" (joinComponents
    [ "subscriptions"; SubscriptionId id; "resourceGroups"; ResourceGroupName id;
      "providers"; "Microsoft.Network"; "networkManagers"; NetworkManagerName id;
      "verifierWorkspaces"; VerifierWorkspaceName id ]).
Proof. reflexivity. Qed.

Lemma eqb_empty_false (s : string) : s <> EmptyString -> String.eqb s EmptyString = false.
Proof. intros H. by apply String.eqb_neq. Qed.

(** The parser on a path of ten components whose literals match. *)
Lemma Parse_path (insensitively : bool) (l0 l2 l4 l5 l6 l8 sub rg nm vw : string) :
  let input := String "/" (joinComponents [l0; sub; l2; rg; l4; l5; l6; nm; l8; vw]) in
  Forall (fun s => strings.ContainsByte s "/" = false) [l0; l2; l4; l5; l6; l8] ->
  validId (mkVerifierWorkspaceId sub rg nm vw) ->
  (if insensitively then strings.EqualFold l0 "subscriptions" else String.eqb l0 "subscriptions") = true ->
  (if insensitively then strings.EqualFold l2 "resourceGroups" else String.eqb l2 "resourceGroups") = true ->
  (if insensitively then strings.EqualFold l4 "providers" else String.eqb l4 "providers") = true ->
  strings.EqualFold l5 "Microsoft.Network" = true ->
  (if insensitively then strings.EqualFold l6 "networkManagers" else String.eqb l6 "networkManagers") = true ->
  (if insensitively then strings.EqualFold l8 "verifierWorkspaces" else String.eqb l8 "verifierWorkspaces") = true ->
  parseWith insensitively input = (Some (mkVerifierWorkspaceId sub rg nm vw), None).
Proof.
  intros input Hl (Hsub & Hrg & Hnm & Hvw) H0 H2 H4 H5 H6 H8.
  destruct Hsub as [Hsub Hsub'], Hrg as [Hrg Hrg'], Hnm as [Hnm Hnm'], Hvw as [Hvw Hvw'].
  simpl in Hsub, Hsub', Hrg, Hrg', Hnm, Hnm', Hvw, Hvw'.
  unfold parseWith, Parse, input.
  change (strings.Split (String "/" ?s) "/") with (EmptyString :: strings.Split s "/").
  rewrite Split_joinComponents.
  2:{ repeat (match goal with H : Forall _ (_ :: _) |- _ => inversion_clear H end).
      repeat constructor; assumption. }
  unfold Segments, matchSegments, literalMatches; simpl.
  rewrite H0, H2, H4, H5, H6, H8.
  rewrite !eqb_empty_false by assumption.
  reflexivity.
Qed.

(** ** Letter case *)




(** ** The Verifier Workspace ID *)

(** The pieces of a split hold no separator. *)
Lemma Split_pieces (s : string) (sep : ascii) :
  Forall (fun p => strings.ContainsByte p sep = false) (strings.Split s sep).
Proof.
  induction s as [|c s IH]; simpl.
  - by repeat constructor.
  - destruct (Ascii.eqb c sep) eqn:Hc.
    + by constructor.
    + destruct (strings.Split s sep) as [|p ps]; inversion IH; subst;
        repeat constructor; simpl; rewrite ?Hc; auto.
Qed.

Lemma matchSegments_cons_inv (insensitively : bool) (raw : string) (seg : Segment)
    (segs : list Segment) (comps : list string) (parsed result : gmap string string) :
  matchSegments insensitively raw (seg :: segs) comps parsed = inr result ->
  exists c comps', comps = c :: comps' /\
    match FixedValue seg with
    | Some literal =>
        literalMatches insensitively seg literal c = true /\
        matchSegments insensitively raw segs comps' parsed = inr result
    | None =>
        String.eqb c EmptyString = false /\
        matchSegments insensitively raw segs comps' (<[Name seg := c]> parsed) = inr result
    end.
Proof.
  simpl. destruct (FixedValue seg) as [literal|], comps as [|c comps']; try discriminate.
  - destruct (literalMatches insensitively seg literal c) eqn:Hm; [|discriminate].
    intros H. by exists c, comps'.
  - destruct (String.eqb c EmptyString) eqn:Hc; [discriminate|].
    intros H. by exists c, comps'.
Qed.

Lemma matchSegments_nil_inv (insensitively : bool) (raw : string)
    (comps : list string) (parsed result : gmap string string) :
  matchSegments insensitively raw [] comps parsed = inr result ->
  comps = [] /\ result = parsed.
Proof. destruct comps; simpl; [|discriminate]. intros [= ->]. done. Qed.

(** An ID that a parse function returns has four valid fields: whatever
    the parser accepted can be formatted and parsed again. *)
Lemma parsed_id_valid (insensitively : bool) (input : string) (id : VerifierWorkspaceId) :
  parseWith insensitively input = (Some id, None) -> validId id.
Proof.
  unfold parseWith, Parse.
  pose proof (Split_pieces input "/") as Hp.
  destruct (strings.Split input "/") as [|[|] comps]; try discriminate.
  inversion_clear Hp as [|? ? _ Hc].
  destruct (matchSegments insensitively input Segments comps ∅) as [err|parsed] eqn:Hm;
    [discriminate|].
  unfold Segments in Hm.
  repeat (apply matchSegments_cons_inv in Hm as (? & ? & -> & Hm);
          cbn [FixedValue Name StaticSegment SubscriptionIdSegment ResourceGroupSegment
               ResourceProviderSegment UserSpecifiedSegment] in Hm;
          destruct Hm as [? Hm]).
  apply matchSegments_nil_inv in Hm as [-> ->].
  repeat (match goal with H : Forall _ (_ :: _) |- _ => inversion_clear H end).
  intros [= <-].
  repeat split; simpl; try assumption; by apply String.eqb_neq.
Qed.

(** C1 (as amended). Round trip: for every Verifier Workspace ID whose four
    fields are non-empty and hold no path separator, formatting it with
    [ID] and parsing the string with [ParseVerifierWorkspaceID] succeeds
    and yields an ID equal to the original, field for field. *)
Theorem C1_format_then_parse (id : VerifierWorkspaceId) :
  validId id ->
  ParseVerifierWorkspaceID (ID id) = (Some id, None).
Proof.
  intros Hid. destruct id as [sub rg nm vw].
  rewrite ID_joinComponents. unfold ParseVerifierWorkspaceID.
  apply Parse_path; try reflexivity; [|exact Hid].
  by repeat constructor.
Qed.

Lemma C1_format_then_parse_witness :
  ParseVerifierWorkspaceID (ID (mkVerifierWorkspaceId "sub-1" "group-1" "mgr1" "ws1"))
  = (Some (mkVerifierWorkspaceId "sub-1" "group-1" "mgr1" "ws1"), None).
Proof.
  apply (C1_format_then_parse (mkVerifierWorkspaceId "sub-1" "group-1" "mgr1" "ws1")).
  repeat split; solve [discriminate | reflexivity].
Defined.

(** C1, the claim as stated, fails: an ID with an empty subscription is
    formatted, the parser rejects the string, and no ID comes back; an ID
    whose workspace name holds a separator is not parsed back either. *)
Lemma C1_round_trip_fails_on_empty_field :
  ParseVerifierWorkspaceID (ID (mkVerifierWorkspaceId "" "group-1" "mgr1" "ws1"))
  = (None, Some (Parsing "/subscriptions//resourceGroups/group-1/providers/Microsoft.Network/networkManagers/mgr1/verifierWorkspaces/ws1"
                   (SegmentNotSpecified "subscriptionId" "/subscriptions//resourceGroups/group-1/providers/Microsoft.Network/networkManagers/mgr1/verifierWorkspaces/ws1")))
  /\ fst (ParseVerifierWorkspaceID (ID (mkVerifierWorkspaceId "sub-1" "group-1" "mgr1" "ws/1")))
     = None.
Proof. split; vm_compute; reflexivity. Qed.

(** The round trip holds for exactly the IDs with valid fields, and so for
    every ID that was parsed successfully. *)
Lemma round_trip_iff (id : VerifierWorkspaceId) :
  ParseVerifierWorkspaceID (ID id) = (Some id, None) <-> validId id.
Proof.
  split.
  - apply parsed_id_valid.
  - intros Hid. destruct id as [sub rg nm vw].
    rewrite ID_joinComponents. apply Parse_path; try reflexivity; [|exact Hid].
    by repeat constructor.
Qed.

Lemma reparse_parsed (insensitively : bool) (input : string) (id : VerifierWorkspaceId) :
  parseWith insensitively input = (Some id, None) ->
  ParseVerifierWorkspaceID (ID id) = (Some id, None).
Proof. intros H. apply round_trip_iff. exact (parsed_id_valid _ _ _ H). Qed.

(** C2. The concrete scenario: the example ID string parses into its four
    fields, and [ID] on that struct gives the input string back. *)
Theorem C2_example_id :
  let input := "/subscriptions/12345678-1234-9876-4563-123456789012/resourceGroups/example-resource-group/providers/Microsoft.Network/networkManagers/mgr1/verifierWorkspaces/ws1" in
  let id := mkVerifierWorkspaceId "12345678-1234-9876-4563-123456789012"
              "example-resource-group" "mgr1" "ws1" in
  ParseVerifierWorkspaceID input = (Some id, None) /\ ID id = input.
Proof. split; vm_compute; reflexivity. Qed.

(** A goal about each key of a list of keys, closed key by key. *)
Ltac by_keys :=
  let Hk := fresh "Hk" in
  intros ? Hk; simpl in Hk;
  repeat (destruct Hk as [<-|Hk]; [first [reflexivity | assumption]|]);
  destruct Hk.

(** C3 (as amended). [FromParseResult] on a parse result that lacks at
    least one of the four keys fails with the segment-not-specified error
    that names the first missing key, in the order in which the keys are
    read (the claimed key when it is the only one missing). It then leaves
    its receiver partly assigned: the fields of the keys before the
    missing one hold the values of the mapping, the field of the missing
    key is the empty string, and the fields after it keep what the
    receiver held; the parse functions drop this receiver and return no
    ID with the error. When no key is missing the call succeeds, all four
    fields hold the values of the mapping, and the parse functions return
    that ID and no error. *)
Theorem C3_FromParseResult (id0 : VerifierWorkspaceId) (input : ParseResult) :
  (forall before k after,
     requiredKeys = before ++ k :: after ->
     (forall k', In k' before -> Parsed input !! k' <> None) ->
     Parsed input !! k = None ->
     snd (FromParseResult id0 input) = Some (NewSegmentNotSpecifiedError k input)
     /\ (forall k', In k' before ->
           Parsed input !! k' = Some (fieldOf (fst (FromParseResult id0 input)) k'))
     /\ fieldOf (fst (FromParseResult id0 input)) k = EmptyString
     /\ (forall k', In k' after ->
           fieldOf (fst (FromParseResult id0 input)) k' = fieldOf id0 k')
     /\ (forall raw, fromParserOutcome raw (inr input)
                     = (None, Some (NewSegmentNotSpecifiedError k input))))
  /\ (forall k, In k requiredKeys -> Parsed input !! k = None ->
        exists k', In k' requiredKeys /\ Parsed input !! k' = None /\
          snd (FromParseResult id0 input) = Some (NewSegmentNotSpecifiedError k' input))
  /\ ((forall k, In k requiredKeys -> Parsed input !! k <> None) ->
      exists id,
        FromParseResult id0 input = (id, None)
        /\ (forall k, In k requiredKeys -> Parsed input !! k = Some (fieldOf id k))
        /\ (forall raw, fromParserOutcome raw (inr input) = (Some id, None)))
  /\ (forall id, FromParseResult id0 input = (id, None) ->
        forall k, In k requiredKeys -> Parsed input !! k = Some (fieldOf id k)).
Proof.
  split; [|split; [|split]].
  - intros before k after Hsplit Hbefore Hmiss. unfold requiredKeys in Hsplit.
    assert (Hpresent : forall k', In k' before -> exists x, Parsed input !! k' = Some x).
    { intros k' Hk'. specialize (Hbefore k' Hk').
      destruct (Parsed input !! k'); [eauto|done]. }
    destruct before as [|b1 [|b2 [|b3 [|b4 before]]]]; simpl in Hsplit;
      injection Hsplit as <-; subst;
      repeat (match goal with
              | H : ?a :: ?l = _ |- _ => injection H as <-
              | H : [] = _ ++ _ :: _ |- _ => by destruct before
              end); subst;
      unfold fromParserOutcome, FromParseResult, index2.
    + rewrite Hmiss. cbn [negb fst snd]. repeat split; by_keys.
    + destruct (Hpresent "subscriptionId") as [x1 H1]; [simpl; tauto|].
      rewrite H1, Hmiss. cbn [negb fst snd]. repeat split; by_keys.
    + destruct (Hpresent "subscriptionId") as [x1 H1]; [simpl; tauto|].
      destruct (Hpresent "resourceGroupName") as [x2 H2]; [simpl; tauto|].
      rewrite H1, H2, Hmiss. cbn [negb fst snd]. repeat split; by_keys.
    + destruct (Hpresent "subscriptionId") as [x1 H1]; [simpl; tauto|].
      destruct (Hpresent "resourceGroupName") as [x2 H2]; [simpl; tauto|].
      destruct (Hpresent "networkManagerName") as [x3 H3]; [simpl; tauto|].
      rewrite H1, H2, H3, Hmiss. cbn [negb fst snd]. repeat split; by_keys.
  - intros k Hk Hmiss. unfold FromParseResult, index2.
    destruct (Parsed input !! "subscriptionId") eqn:H1; simpl;
      [|exists "subscriptionId"; simpl; auto].
    destruct (Parsed input !! "resourceGroupName") eqn:H2; simpl;
      [|exists "resourceGroupName"; simpl; auto].
    destruct (Parsed input !! "networkManagerName") eqn:H3; simpl;
      [|exists "networkManagerName"; simpl; auto].
    destruct (Parsed input !! "verifierWorkspaceName") eqn:H4; simpl;
      [|exists "verifierWorkspaceName"; simpl; auto 6].
    exfalso. simpl in Hk.
    destruct Hk as [<-|[<-|[<-|[<-|[]]]]]; congruence.
  - intros Hall. unfold fromParserOutcome, FromParseResult, index2.
    destruct (Parsed input !! "subscriptionId") as [x1|] eqn:H1;
      [|by destruct (Hall "subscriptionId"); [simpl; tauto|]].
    destruct (Parsed input !! "resourceGroupName") as [x2|] eqn:H2;
      [|by destruct (Hall "resourceGroupName"); [simpl; tauto|]].
    destruct (Parsed input !! "networkManagerName") as [x3|] eqn:H3;
      [|by destruct (Hall "networkManagerName"); [simpl; tauto|]].
    destruct (Parsed input !! "verifierWorkspaceName") as [x4|] eqn:H4;
      [|by destruct (Hall "verifierWorkspaceName"); [simpl; tauto|]].
    cbn [negb]. eexists. split; [reflexivity|]. split; [|reflexivity].
    intros k [<-|[<-|[<-|[<-|[]]]]]; assumption.
  - intros id. unfold FromParseResult, index2.
    destruct (Parsed input !! "subscriptionId") eqn:H1; simpl; [|discriminate].
    destruct (Parsed input !! "resourceGroupName") eqn:H2; simpl; [|discriminate].
    destruct (Parsed input !! "networkManagerName") eqn:H3; simpl; [|discriminate].
    destruct (Parsed input !! "verifierWorkspaceName") eqn:H4; simpl; [|discriminate].
    intros [= <-] k [<-|[<-|[<-|[<-|[]]]]]; assumption.
Qed.

(** C3, the claim as stated, fails twice. A mapping that lacks
    "verifierWorkspaceName" and "subscriptionId" gives the error that
    names "subscriptionId", not the other missing key; and after a failed
    call on a mapping with "subscriptionId" only, the receiver holds the
    subscription and nothing else: it is partly populated. *)
Lemma C3_first_missing_key_and_partial_receiver :
  let lacksTwo :=
    mkParseResult (<["resourceGroupName" := "group-1"]>
                     (<["networkManagerName" := "mgr1"]> ∅)) "raw" in
  let subscriptionOnly := mkParseResult {[ "subscriptionId" := "sub-1" ]} "raw" in
  Parsed lacksTwo !! "verifierWorkspaceName" = None
  /\ snd (FromParseResult zeroId lacksTwo)
     = Some (SegmentNotSpecified "subscriptionId" "raw")
  /\ FromParseResult zeroId subscriptionOnly
     = (mkVerifierWorkspaceId "sub-1" EmptyString EmptyString EmptyString,
        Some (SegmentNotSpecified "resourceGroupName" "raw")).
Proof. repeat split; vm_compute; reflexivity. Qed.

(** The receiver of a failed [FromParseResult] keeps the fields assigned
    before the missing key; the parse functions drop it. *)
Lemma FromParseResult_receiver_on_failure :
  let input := mkParseResult {[ "subscriptionId" := "sub-1" ]} "raw" in
  FromParseResult zeroId input
  = (mkVerifierWorkspaceId "sub-1" EmptyString EmptyString EmptyString,
     Some (SegmentNotSpecified "resourceGroupName" "raw"))
  /\ fromParserOutcome "raw" (inr input)
     = (None, Some (SegmentNotSpecified "resourceGroupName" "raw")).
Proof. split; vm_compute; reflexivity. Qed.




(** C5. [ValidateVerifierWorkspaceID] never warns; it returns one error
    when the input is not a string and when the string does not parse (the
    empty string does not), and no error when the string parses, as every
    string does that [ID] formats from valid fields. *)
Theorem C5_Validate (input : Value) (key : string) :
  fst (ValidateVerifierWorkspaceID input key) = []
  /\ ((forall s, input <> VString s) ->
      snd (ValidateVerifierWorkspaceID input key) = [ExpectedString key])
  /\ (forall s err, input = VString s ->
        snd (ParseVerifierWorkspaceID s) = Some err ->
        snd (ValidateVerifierWorkspaceID input key) = [err])
  /\ (forall s, input = VString s ->
        snd (ParseVerifierWorkspaceID s) = None ->
        snd (ValidateVerifierWorkspaceID input key) = [])
  /\ snd (ValidateVerifierWorkspaceID (VString EmptyString) key)
     = [Parsing EmptyString (WrongNumberOfComponents EmptyString)]
  /\ (forall id, validId id ->
        ValidateVerifierWorkspaceID (VString (ID id)) key = ([], [])).
Proof.
  repeat split.
  - destruct input; simpl; try reflexivity.
    by destruct (ParseVerifierWorkspaceID s) as [? [?|]].
  - intros Hns. destruct input; simpl; try reflexivity. by destruct (Hns s).
  - intros s err -> Hp. simpl.
    destruct (ParseVerifierWorkspaceID s) as [? [?|]]; simpl in *; congruence.
  - intros s -> Hp. simpl.
    destruct (ParseVerifierWorkspaceID s) as [? [?|]]; simpl in *; congruence.
  - intros id Hid. simpl. by rewrite (proj2 (round_trip_iff id) Hid).
Qed.

(** ** The criteria block *)

Lemma appendIfSet_app (conditions : list LeafCondition) (field value : string) :
  appendIfSet conditions field value
  = conditions ++ (if String.eqb value EmptyString then []
                   else [mkLeafCondition (Some field) (Some value)]).
Proof.
  unfold appendIfSet. destruct (String.eqb value EmptyString); simpl; [|reflexivity].
  by rewrite app_nil_r.
Qed.

Lemma bind_assertString_inv {A : Type} (v : gmap string Value) (k : string)
    (f : string -> Outcome A) (a : A) :
  assertString (mapIndex v k) ≫= f = Returns a ->
  exists s, v !! k = Some (VString s) /\ f s = Returns a.
Proof.
  unfold mapIndex. destruct (v !! k) as [[]|]; simpl; try discriminate.
  intros H. eauto.
Qed.

Lemma expand_returns (v : gmap string Value) (rest : list Value) :
  hasAllCriteria v ->
  expandMonitorActivityLogAlertCriteria (VMap v :: rest)
  = Returns (mkAllOfCondition (Some (expectedConditions v))).
Proof.
  intros Hall.
  unfold expandMonitorActivityLogAlertCriteria, expectedConditions, criteriaFields,
    conditionOf, mapIndex.
  cbn [sliceIndex lookup list_lookup assertMap mbind Outcome_bind flat_map fst snd].
  repeat (match goal with
          | |- context [v !! ?key] =>
              let s := fresh "s" in
              destruct (Hall key) as [s ->]; [unfold criteriaKeys; simpl; tauto|]
          end;
          cbn [default assertString mbind Outcome_bind option_rect id]).
  rewrite !appendIfSet_app. cbn [mret Outcome_ret app].
  rewrite <- !app_assoc, ?app_nil_r. reflexivity.
Qed.

Lemma scenarioCriteria_hasAll : hasAllCriteria scenarioCriteria.
Proof.
  intros k Hk. unfold criteriaKeys in Hk. simpl in Hk.
  repeat (destruct Hk as [<-|Hk]; [eexists; vm_compute; reflexivity|]).
  destruct Hk.
Qed.

Lemma filter_flat_map {A B : Type} (p : B -> bool) (g : A -> list B) (l : list A) :
  List.filter p (flat_map g l) = flat_map (fun x => List.filter p (g x)) l.
Proof.
  induction l as [|x l IH]; simpl; [reflexivity|].
  by rewrite List.filter_app, IH.
Qed.

Lemma filter_conditionOf (v : gmap string Value) (kf : string * string) (field : string) :
  List.filter (fieldIs field) (conditionOf v kf)
  = if String.eqb kf.2 field then conditionOf v kf else [].
Proof.
  unfold conditionOf.
  destruct (v !! kf.1) as [[| s | | | |]|]; try by destruct (String.eqb kf.2 field).
  destruct (String.eqb s EmptyString); [by destruct (String.eqb kf.2 field)|].
  unfold fieldIs. simpl. by destruct (String.eqb kf.2 field).
Qed.

(** The expected list holds one condition on a field whose value is a
    non-empty string and none on a field whose value is the empty
    string. *)
Lemma expectedConditions_per_field (v : gmap string Value) (key field s : string) :
  In (key, field) criteriaFields ->
  v !! key = Some (VString s) ->
  List.filter (fieldIs field) (expectedConditions v)
  = if String.eqb s EmptyString then [] else [leaf field s].
Proof.
  intros Hin Hv. unfold expectedConditions. rewrite filter_flat_map.
  unfold criteriaFields in *. cbn [flat_map]. rewrite !filter_conditionOf.
  simpl in Hin.
  repeat (destruct Hin as [[= <- <-]|Hin];
          [cbn [snd String.eqb Ascii.eqb Bool.eqb]; cbn [app];
           rewrite ?app_nil_r; unfold conditionOf; cbn [fst snd];
           rewrite Hv; reflexivity|]).
  destruct Hin.
Qed.

(** C6 (as amended). For every criteria map that holds a string under every
    criteria key, expand returns exactly one condition for each criteria
    field whose value is a non-empty string, in the order of the fields,
    and none for a field equal to the empty string; for the input with
    category "Administrative" and every other criteria field the empty
    string it returns exactly one condition, with Field "category" and
    Equals "Administrative". *)
Theorem C6_expand (v : gmap string Value) (rest : list Value) :
  hasAllCriteria v ->
  exists conditions,
    expandMonitorActivityLogAlertCriteria (VMap v :: rest)
    = Returns (mkAllOfCondition (Some conditions))
    /\ conditions = expectedConditions v
    /\ (forall key field s, In (key, field) criteriaFields ->
          v !! key = Some (VString s) ->
          List.filter (fieldIs field) conditions
          = if String.eqb s EmptyString then [] else [leaf field s])
    /\ expandMonitorActivityLogAlertCriteria [VMap scenarioCriteria]
       = Returns (mkAllOfCondition (Some [leaf "category" "Administrative"])).
Proof.
  intros Hall. exists (expectedConditions v). split; [|split; [|split]].
  - by apply expand_returns.
  - reflexivity.
  - apply expectedConditions_per_field.
  - vm_compute. reflexivity.
Qed.

Lemma C6_expand_witness :
  exists conditions,
    expandMonitorActivityLogAlertCriteria [VMap scenarioCriteria]
    = Returns (mkAllOfCondition (Some conditions))
    /\ conditions = [leaf "category" "Administrative"].
Proof.
  destruct (C6_expand scenarioCriteria [] scenarioCriteria_hasAll)
    as (conditions & Hret & -> & _).
  exists (expectedConditions scenarioCriteria). split; [exact Hret|].
  vm_compute. reflexivity.
Defined.

(** C6, the claim as stated, fails on the input of the scenario taken as
    written: with the two keys only, the read of the absent key "caller"
    gives nil, the assertion to string panics, and no condition list is
    produced. *)
Lemma C6_expand_panics_on_partial_map :
  expandMonitorActivityLogAlertCriteria [VMap scenarioLiteral]
  = Panics (InterfaceConversion VNil "string").
Proof. vm_compute. reflexivity. Qed.

(** C10. expand indexes the first element of its input without a check: it
    returns exactly when the input is non-empty and its first element is a
    map with a string under every criteria key, and it panics on the
    empty list. *)
Theorem C10_expand_total (input : list Value) :
  ((exists c, expandMonitorActivityLogAlertCriteria input = Returns c) <->
   (exists v rest, input = VMap v :: rest /\ hasAllCriteria v))
  /\ expandMonitorActivityLogAlertCriteria [] = Panics (IndexOutOfRange 0 0).
Proof.
  split; [|reflexivity]. split.
  - intros [c Hc]. destruct input as [|[| | | | |v] rest]; try discriminate.
    exists v, rest. split; [reflexivity|].
    unfold expandMonitorActivityLogAlertCriteria in Hc.
    cbn [sliceIndex lookup list_lookup assertMap mbind Outcome_bind] in Hc.
    repeat (apply bind_assertString_inv in Hc as [? [? Hc]]).
    intros k Hk. unfold criteriaKeys in Hk. simpl in Hk.
    repeat (destruct Hk as [<-|Hk]; [eauto|]). destruct Hk.
  - intros (v & rest & -> & Hall). eexists. by apply expand_returns.
Qed.

Lemma flattenCondition_renamed (result : gmap string Value) (field equals lower key : string) :
  In (lower, key) renamedFields ->
  strings.ToLower field = lower ->
  flattenCondition result (leaf field equals) = <[key := VString equals]> result.
Proof.
  intros Hin Hlow. unfold flattenCondition, leaf. cbn [Field Equals]. cbv zeta.
  rewrite Hlow. simpl in Hin.
  repeat (destruct Hin as [[= <- <-]|Hin]; [reflexivity|]). destruct Hin.
Qed.

Lemma flattenCondition_passed (result : gmap string Value) (field equals : string) :
  In (strings.ToLower field) passedFields ->
  flattenCondition result (leaf field equals) = <[field := VString equals]> result.
Proof.
  intros Hin. unfold flattenCondition, leaf. cbn [Field Equals]. cbv zeta.
  simpl in Hin.
  repeat (destruct Hin as [<-|Hin]; [reflexivity|]). destruct Hin.
Qed.

Lemma flattenCondition_unrecognized (result : gmap string Value) (field equals : string) :
  ~ In (strings.ToLower field) recognizedFields ->
  flattenCondition result (leaf field equals) = result.
Proof.
  intros Hnot. unfold flattenCondition, leaf. cbn [Field Equals]. cbv zeta.
  repeat (match goal with
          | |- context [String.eqb (strings.ToLower field) ?lit] =>
              destruct (String.eqb_spec (strings.ToLower field) lit) as [E|_];
              [exfalso; apply Hnot; rewrite E; vm_compute; tauto|]
          end).
  reflexivity.
Qed.

Lemma letterOf_lowerByte (c d : ascii) :
  letterOf c d = true ->
  strings.lowerByte d = d ->
  (N_of_ascii d <? 128)%N = true ->
  strings.lowerByte c = d /\ (N_of_ascii c <? 128)%N = true.
Proof.
  unfold letterOf. intros H Hd Hascii.
  apply orb_true_iff in H as [H|H].
  - apply Ascii.eqb_eq in H as ->. by split.
  - apply andb_true_iff in H as [H Hsum]. apply andb_true_iff in H as [Hlo Hhi].
    apply N.leb_le in Hlo, Hhi. apply N.eqb_eq in Hsum.
    unfold strings.lowerByte. cbv zeta.
    assert (Hup : ((65 <=? N_of_ascii c) && (N_of_ascii c <=? 90))%N = true).
    { apply andb_true_iff. split; apply N.leb_le; lia. }
    rewrite Hup, Hsum, ascii_N_embedding. split; [reflexivity|].
    apply N.ltb_lt. lia.
Qed.

Lemma recased_lowerBytes (field name : string) :
  recased field name = true ->
  strings.lowerBytes name = name ->
  strings.isASCII name = true ->
  strings.lowerBytes field = name /\ strings.isASCII field = true.
Proof.
  revert name. induction field as [|c field IH]; intros [|d name]; simpl;
    try discriminate; [done|].
  intros [Hc Hrest]%andb_true_iff [= Hd Hname] [Hascii Hrest']%andb_true_iff.
  destruct (letterOf_lowerByte c d Hc Hd Hascii) as [-> ->].
  destruct (IH name Hrest Hname Hrest') as [-> ->]. done.
Qed.

Lemma recased_ToLower (field name : string) :
  In name recognizedFields ->
  recased field name = true ->
  strings.ToLower field = name.
Proof.
  intros Hin Hre.
  assert (H : strings.lowerBytes name = name /\ strings.isASCII name = true).
  { unfold recognizedFields in Hin. simpl in Hin.
    repeat (destruct Hin as [<-|Hin]; [by split|]). destruct Hin. }
  destruct (recased_lowerBytes field name Hre (proj1 H) (proj2 H)) as [Hlow Hascii].
  unfold strings.ToLower. by rewrite Hascii.
Qed.

Lemma flattenCondition_stores (result : gmap string Value) (field equals : string) :
  In (strings.ToLower field) recognizedFields ->
  exists key, flattenCondition result (leaf field equals)
              = <[key := VString equals]> result.
Proof.
  intros Hin. unfold recognizedFields in Hin. apply in_app_or in Hin as [Hin|Hin].
  - apply in_map_iff in Hin as ([lower key] & Hl & Hin). simpl in Hl.
    exists key. by apply (flattenCondition_renamed _ _ _ lower).
  - exists field. by apply flattenCondition_passed.
Qed.

(** C7. flatten of the response whose only condition has Field "category"
    and Equals "Administrative" is the one criteria map that holds
    "Administrative" under "category" and nothing under any other key. A
    condition is recognized by its lower-cased field name: it is stored
    when that name is one of the thirteen recognized names and dropped
    otherwise; so a field that is a recognized name with any of its
    letters in upper case is stored like the name itself ("CATEGORY" and
    "OPERATIONNAME" are), and a field that is no recognized name in any
    letter case is dropped. *)
Theorem C7_flatten :
  flattenMonitorActivityLogAlertCriteria
    (Some (mkAllOfCondition (Some [leaf "category" "Administrative"])))
  = [VMap {[ "category" := VString "Administrative" ]}]
  /\ (forall k, k <> "category" ->
        ({[ "category" := VString "Administrative" ]} : gmap string Value) !! k = None)
  /\ (forall result field equals,
        (In (strings.ToLower field) recognizedFields ->
         exists key, flattenCondition result (leaf field equals)
                     = <[key := VString equals]> result)
        /\ (~ In (strings.ToLower field) recognizedFields ->
            flattenCondition result (leaf field equals) = result))
  /\ (forall result field equals name,
        In name recognizedFields ->
        recased field name = true ->
        strings.ToLower field = name
        /\ exists key, flattenCondition result (leaf field equals)
                       = <[key := VString equals]> result)
  /\ flattenMonitorActivityLogAlertCriteria
       (Some (mkAllOfCondition (Some [leaf "CATEGORY" "Administrative"])))
     = [VMap {[ "CATEGORY" := VString "Administrative" ]}]
  /\ flattenMonitorActivityLogAlertCriteria
       (Some (mkAllOfCondition (Some [leaf "OPERATIONNAME" "Microsoft.Compute/write"])))
     = [VMap {[ "operation_name" := VString "Microsoft.Compute/write" ]}]
  /\ flattenMonitorActivityLogAlertCriteria
       (Some (mkAllOfCondition (Some [leaf "categories" "Administrative"])))
     = [VMap ∅].
Proof.
  split; [vm_compute; reflexivity|]. split; [|split; [|split]].
  - intros k Hk. by apply lookup_singleton_ne.
  - intros result field equals. split.
    + apply flattenCondition_stores.
    + apply flattenCondition_unrecognized.
  - intros result field equals name Hin Hre.
    pose proof (recased_ToLower field name Hin Hre) as Hlow.
    split; [exact Hlow|]. apply flattenCondition_stores. by rewrite Hlow.
  - repeat split; vm_compute; reflexivity.
Qed.

(** The lower-casing is that of [strings.ToLower], by runes: a field
    written with U+0130 for the 'I' of "resourceId" lower-cases to
    "resourceid" and is stored under "resource_id". *)
Lemma flatten_dotted_resourceId :
  strings.ToLower dottedResourceId = "resourceid"
  /\ isStored (leaf dottedResourceId "/subscriptions/sub-1") = true
  /\ flattenMonitorActivityLogAlertCriteria
       (Some (mkAllOfCondition (Some [leaf dottedResourceId "/subscriptions/sub-1"])))
     = [VMap {[ "resource_id" := VString "/subscriptions/sub-1" ]}].
Proof. repeat split; vm_compute; reflexivity. Qed.

(** C9. A condition whose field name lower-cases to "caller", "category",
    "level" or "status" is stored under the field name as the response
    spells it (Field "Category" gives the key "Category", and the key
    "category" stays absent); a condition with any other recognized field
    name is stored under its fixed snake_case configuration key. *)
Theorem C9_flatten_keys (result : gmap string Value) (field equals : string) :
  (In (strings.ToLower field) passedFields ->
   flattenCondition result (leaf field equals) = <[field := VString equals]> result)
  /\ (forall lower key, In (lower, key) renamedFields ->
        strings.ToLower field = lower ->
        flattenCondition result (leaf field equals) = <[key := VString equals]> result)
  /\ flattenMonitorActivityLogAlertCriteria
       (Some (mkAllOfCondition (Some [leaf "Category" equals])))
     = [VMap {[ "Category" := VString equals ]}]
  /\ ({[ "Category" := VString equals ]} : gmap string Value) !! "category" = None.
Proof.
  split; [apply flattenCondition_passed|].
  split; [intros lower key; apply flattenCondition_renamed|].
  split; [|done].
  unfold flattenMonitorActivityLogAlertCriteria. cbn [AllOf foldl].
  rewrite flattenCondition_passed; [|vm_compute; tauto].
  by rewrite insert_empty.
Qed.

(** ** The delete hook *)

(** C8 (as amended). When the stored ID parses and the Delete call of the
    API answers with an error, the hook returns nil if the response is a
    not-found response, and otherwise returns the error wrapped with the
    alert name and the resource group; in both cases it leaves the state
    handle as it was (removing the resource from the state is left to the
    framework that called the hook). *)
Theorem C8_delete (parse : string -> monitor.Error + ResourceID) (d : ResourceData)
    (meta : Client) (id : ResourceID) (resp : Response) (err : monitor.Error) :
  parse (Id d) = inr id ->
  Delete meta (ResourceGroup id) (alertName id) = (resp, Some err) ->
  (WasNotFound resp = true ->
   resourceMonitorActivityLogAlertDelete parse d meta = (d, None))
  /\ (WasNotFound resp = false ->
      resourceMonitorActivityLogAlertDelete parse d meta
      = (d, Some (ErrorDeleting (alertName id) (ResourceGroup id) err))).
Proof.
  intros Hparse Hdel. unfold resourceMonitorActivityLogAlertDelete.
  rewrite Hparse. fold (alertName id). rewrite Hdel.
  split; intros ->; reflexivity.
Qed.

Lemma C8_delete_witness :
  resourceMonitorActivityLogAlertDelete sampleParse sampleData goneClient
  = (sampleData, None)
  /\ resourceMonitorActivityLogAlertDelete sampleParse sampleData failingClient
     = (sampleData,
        Some (ErrorDeleting "alert-1" "group-1" (Opaque "internal server error"))).
Proof.
  pose proof (C8_delete sampleParse sampleData goneClient
                (mkResourceID "group-1" {[ "activityLogAlerts" := "alert-1" ]})
                (mkResponse (Some 404%Z)) (Opaque "not found")
                eq_refl eq_refl) as [Hgone _].
  pose proof (C8_delete sampleParse sampleData failingClient
                (mkResourceID "group-1" {[ "activityLogAlerts" := "alert-1" ]})
                (mkResponse (Some 500%Z)) (Opaque "internal server error")
                eq_refl eq_refl) as [_ Hfail].
  split; [exact (Hgone eq_refl) | exact (Hfail eq_refl)].
Defined.

(** C8, the claim as stated, fails in its clause on the local state: on a
    not-found answer the hook returns nil, and the state handle still
    holds the ID and the attributes it held before the call. *)
Lemma C8_delete_keeps_state :
  WasNotFound (fst (Delete goneClient "group-1" "alert-1")) = true
  /\ snd (resourceMonitorActivityLogAlertDelete sampleParse sampleData goneClient) = None
  /\ Id (fst (resourceMonitorActivityLogAlertDelete sampleParse sampleData goneClient))
     = sampleAlertId
  /\ Id (fst (resourceMonitorActivityLogAlertDelete sampleParse sampleData goneClient))
     <> EmptyString.
Proof. repeat split. discriminate. Qed.

(** The hook never changes the state handle, and an ID that does not parse
    is reported as it is, before any call of the API. *)
Lemma delete_state_unchanged (parse : string -> monitor.Error + ResourceID)
    (d : ResourceData) (meta : Client) :
  fst (resourceMonitorActivityLogAlertDelete parse d meta) = d.
Proof.
  unfold resourceMonitorActivityLogAlertDelete.
  destruct (parse (Id d)); [reflexivity|].
  destruct (Delete meta _ _) as [resp [err|]]; [|reflexivity].
  by destruct (negb (WasNotFound resp)).
Qed.

Lemma delete_unparsed_id (parse : string -> monitor.Error + ResourceID)
    (d : ResourceData) (meta : Client) (err : monitor.Error) :
  parse (Id d) = inl err ->
  resourceMonitorActivityLogAlertDelete parse d meta = (d, Some err).
Proof. intros H. unfold resourceMonitorActivityLogAlertDelete. by rewrite H. Qed.

(** * Further properties of the code *)

(** ** The Verifier Workspace ID *)

(** X1. [ID] is injective on IDs whose fields are non-empty and hold no
    separator: two such IDs with the same string are equal. *)
Theorem ID_injective (id1 id2 : VerifierWorkspaceId) :
  validId id1 -> validId id2 -> ID id1 = ID id2 -> id1 = id2.
Proof.
  intros H1%round_trip_iff H2%round_trip_iff Heq.
  rewrite Heq, H2 in H1. by injection H1.
Qed.

Lemma ID_injective_witness :
  mkVerifierWorkspaceId "sub-1" "group-1" "mgr1" "ws1"
  = NewVerifierWorkspaceID "sub-1" "group-1" "mgr1" "ws1".
Proof.
  apply ID_injective; try reflexivity;
    repeat split; solve [discriminate | reflexivity].
Defined.

(** Without the condition on the fields two different IDs can have the
    same string. *)
Lemma ID_collision :
  ID (mkVerifierWorkspaceId "sub-1" "group-1" "mgr1" "a/verifierWorkspaces/b")
  = ID (mkVerifierWorkspaceId "sub-1" "group-1" "mgr1/verifierWorkspaces/a" "b").
Proof. reflexivity. Qed.

(** X2. The three generated functions agree: [ID] is the path of
    [Segments], each static segment rendered as its literal and each other
    segment as the field that [FromParseResult] reads under the name of
    the segment; and [FromParseResult] reads the ID back from these
    values, whatever its receiver held. *)
Theorem ID_renders_Segments (id id0 : VerifierWorkspaceId) (raw : string) :
  renderSegments (parsedOf id) Segments = Some (ID id)
  /\ FromParseResult id0 (mkParseResult (parsedOf id) raw) = (id, None).
Proof. destruct id as [sub rg nm vw]. split; reflexivity. Qed.

(** X3. A failed [FromParseResult] leaves its receiver half assigned: the
    fields before the first missing key hold the values of the mapping,
    the field of the missing key is the empty string, and the fields after
    it keep what the receiver held. *)
Theorem FromParseResult_failure_state (id0 : VerifierWorkspaceId) (input : ParseResult) :
  (Parsed input !! "subscriptionId" = None ->
   FromParseResult id0 input
   = (mkVerifierWorkspaceId EmptyString (ResourceGroupName id0)
        (NetworkManagerName id0) (VerifierWorkspaceName id0),
      Some (SegmentNotSpecified "subscriptionId" (RawInput input))))
  /\ (forall sub, Parsed input !! "subscriptionId" = Some sub ->
        Parsed input !! "resourceGroupName" = None ->
        FromParseResult id0 input
        = (mkVerifierWorkspaceId sub EmptyString
             (NetworkManagerName id0) (VerifierWorkspaceName id0),
           Some (SegmentNotSpecified "resourceGroupName" (RawInput input))))
  /\ (forall sub rg, Parsed input !! "subscriptionId" = Some sub ->
        Parsed input !! "resourceGroupName" = Some rg ->
        Parsed input !! "networkManagerName" = None ->
        FromParseResult id0 input
        = (mkVerifierWorkspaceId sub rg EmptyString (VerifierWorkspaceName id0),
           Some (SegmentNotSpecified "networkManagerName" (RawInput input))))
  /\ (forall sub rg nm, Parsed input !! "subscriptionId" = Some sub ->
        Parsed input !! "resourceGroupName" = Some rg ->
        Parsed input !! "networkManagerName" = Some nm ->
        Parsed input !! "verifierWorkspaceName" = None ->
        FromParseResult id0 input
        = (mkVerifierWorkspaceId sub rg nm EmptyString,
           Some (SegmentNotSpecified "verifierWorkspaceName" (RawInput input)))).
Proof.
  unfold FromParseResult, index2.
  repeat split; intros; repeat (match goal with H : _ !! _ = _ |- _ => rewrite H; clear H end);
    reflexivity.
Qed.

(** ** The criteria block, both ways *)

Lemma foldl_flatten_conditionOf (v m : gmap string Value) (key field s : string)
    (rest : list LeafCondition) :
  In (key, field) criteriaFields ->
  v !! key = Some (VString s) ->
  foldl flattenCondition m (conditionOf v (key, field) ++ rest)
  = foldl flattenCondition (storeIfSet key s m) rest.
Proof.
  intros Hin Hv. unfold conditionOf, storeIfSet. cbn [fst snd]. rewrite Hv.
  destruct (String.eqb s EmptyString); [reflexivity|].
  cbn [app foldl]. f_equal.
  simpl in Hin.
  repeat (destruct Hin as [[= <- <-]|Hin]; [reflexivity|]). destruct Hin.
Qed.

Lemma lookup_storeIfSet (key s : string) (m : gmap string Value) (k : string) :
  storeIfSet key s m !! k
  = if decide (k = key)
    then (if String.eqb s EmptyString then m !! k else Some (VString s))
    else m !! k.
Proof.
  unfold storeIfSet. destruct (String.eqb s EmptyString); case_decide; subst;
    try reflexivity.
  - by rewrite lookup_insert_eq.
  - by rewrite lookup_insert_ne.
Qed.

Lemma lookup_setCriteria (v : gmap string Value) (k : string) :
  setCriteria v !! k
  = match v !! k with
    | Some x => if decide (k ∈ criteriaKeys) then
                  (if isSetString x then Some x else None)
                else None
    | None => None
    end.
Proof.
  unfold setCriteria. rewrite map_lookup_filter.
  destruct (v !! k) as [x|]; [|reflexivity]. simpl.
  case_decide.
  - destruct (isSetString x) eqn:Hx.
    + rewrite option_guard_True; [reflexivity|]. by split.
    + rewrite option_guard_False; [reflexivity|]. intros [_ ?]. congruence.
  - rewrite option_guard_False; [reflexivity|]. by intros [? _].
Qed.

Lemma criteriaKeys_NoDup : NoDup criteriaKeys.
Proof. apply (bool_decide_unpack _). vm_compute. exact I. Qed.

(** The map flatten builds from the conditions expand makes of some of the
    criteria fields, starting from [m]. *)
Lemma lookup_flatten_conditions (v : gmap string Value) (fields : list (string * string))
    (m : gmap string Value) (k : string) :
  hasAllCriteria v ->
  NoDup fields.*1 ->
  (forall kf, In kf fields -> In kf criteriaFields) ->
  foldl flattenCondition m (flat_map (conditionOf v) fields) !! k
  = if decide (k ∈ fields.*1) then
      match v !! k with
      | Some x => if isSetString x then Some x else m !! k
      | None => m !! k
      end
    else m !! k.
Proof.
  intros Hall. revert m.
  induction fields as [|[key field] fields IH]; intros m Hnd Hsub.
  - cbn [flat_map foldl]. case_decide as H; [by apply elem_of_nil in H|reflexivity].
  - cbn [flat_map fmap list_fmap fst] in *.
    assert (Hin : In (key, field) criteriaFields) by (apply Hsub; by left).
    destruct (Hall key) as [s Hs].
    { unfold criteriaKeys. by apply (in_map fst) in Hin. }
    rewrite (foldl_flatten_conditionOf v m key field s _ Hin Hs).
    apply NoDup_cons in Hnd as [Hkey Hnd].
    rewrite IH; [|exact Hnd|intros kf Hkf; apply Hsub; by right].
    rewrite lookup_storeIfSet.
    destruct (decide (k = key)) as [->|Hne].
    + rewrite decide_False by exact Hkey.
      rewrite decide_True by (apply elem_of_cons; by left).
      rewrite Hs. cbn [isSetString]. by destruct (String.eqb s EmptyString).
    + destruct (decide (k ∈ fields.*1)) as [Hk|Hk].
      * rewrite decide_True by (apply elem_of_cons; by right). reflexivity.
      * rewrite decide_False; [reflexivity|].
        intros [?|?]%elem_of_cons; congruence.
Qed.

Lemma criteriaKeys_fmap : criteriaKeys = criteriaFields.*1.
Proof. reflexivity. Qed.

Lemma flatten_expectedConditions (v : gmap string Value) :
  hasAllCriteria v ->
  foldl flattenCondition ∅ (expectedConditions v) = setCriteria v.
Proof.
  intros Hall. apply map_eq. intros k.
  unfold expectedConditions.
  rewrite lookup_flatten_conditions;
    [|exact Hall|rewrite <- criteriaKeys_fmap; apply criteriaKeys_NoDup|auto].
  rewrite lookup_setCriteria, lookup_empty, <- criteriaKeys_fmap.
  destruct (decide (k ∈ criteriaKeys)) as [Hk|Hk].
  - destruct (v !! k) as [x|]; [|reflexivity]. by destruct (isSetString x).
  - by destruct (v !! k).
Qed.

(** X4. Round trip of the criteria: for a criteria map with a string under
    every criteria key, flatten of what expand returns is the one map that
    holds the criteria that are set, each under its configuration key with
    its value, and nothing else. *)
Theorem flatten_expand_criteria (v : gmap string Value) (rest : list Value) :
  hasAllCriteria v ->
  exists c,
    expandMonitorActivityLogAlertCriteria (VMap v :: rest) = Returns c
    /\ flattenMonitorActivityLogAlertCriteria (Some c) = [VMap (setCriteria v)].
Proof.
  intros Hall. eexists. split; [by apply expand_returns|].
  unfold flattenMonitorActivityLogAlertCriteria. cbn [AllOf].
  by rewrite flatten_expectedConditions.
Qed.

Lemma flatten_expand_criteria_witness :
  exists c,
    expandMonitorActivityLogAlertCriteria [VMap scenarioCriteria] = Returns c
    /\ flattenMonitorActivityLogAlertCriteria (Some c)
       = [VMap {[ "category" := VString "Administrative" ]}].
Proof.
  destruct (flatten_expand_criteria scenarioCriteria [] scenarioCriteria_hasAll)
    as (c & Hc & Hf).
  exists c. split; [exact Hc|]. rewrite Hf. reflexivity.
Defined.

(** X5. expand reads the first element of its input and, of that map, the
    thirteen criteria keys only: two inputs whose first maps agree on these
    keys give the same outcome, a panic included, whatever else the maps
    and the lists hold. *)
Theorem expand_reads_criteria_keys (v v' : gmap string Value) (rest rest' : list Value) :
  (forall k, In k criteriaKeys -> v !! k = v' !! k) ->
  expandMonitorActivityLogAlertCriteria (VMap v :: rest)
  = expandMonitorActivityLogAlertCriteria (VMap v' :: rest').
Proof.
  intros Hagree. unfold expandMonitorActivityLogAlertCriteria, mapIndex.
  cbn [sliceIndex lookup list_lookup assertMap mbind Outcome_bind].
  repeat (match goal with
          | |- context [v !! ?key] =>
              rewrite (Hagree key) by (unfold criteriaKeys; simpl; tauto)
          end).
  reflexivity.
Qed.

Lemma expand_reads_criteria_keys_witness :
  expandMonitorActivityLogAlertCriteria
    [VMap (<["unknown" := VInt 1]> scenarioCriteria); VNil]
  = expandMonitorActivityLogAlertCriteria [VMap scenarioCriteria].
Proof.
  apply expand_reads_criteria_keys.
  intros k Hk. apply lookup_insert_ne.
  unfold criteriaKeys in Hk. simpl in Hk.
  repeat (destruct Hk as [<-|Hk]; [discriminate|]). destruct Hk.
Defined.

Lemma existsb_eqb_false (x : string) (l : list string) :
  existsb (String.eqb x) l = false -> ~ In x l.
Proof.
  intros Hb Hin. assert (existsb (String.eqb x) l = true); [|congruence].
  apply existsb_exists. exists x. split; [exact Hin|apply String.eqb_refl].
Qed.

Lemma flattenCondition_not_stored (result : gmap string Value) (c : LeafCondition) :
  isStored c = false -> flattenCondition result c = result.
Proof.
  destruct c as [[field|] [equals|]]; try reflexivity.
  unfold isStored. cbn [Field Equals]. intros H%existsb_eqb_false.
  by apply (flattenCondition_unrecognized result field equals).
Qed.

Lemma foldl_flattenCondition_filter (conditions : list LeafCondition)
    (result : gmap string Value) :
  foldl flattenCondition result (List.filter isStored conditions)
  = foldl flattenCondition result conditions.
Proof.
  revert result. induction conditions as [|c conditions IH]; intros result;
    [reflexivity|].
  cbn [List.filter foldl]. destruct (isStored c) eqn:Hc.
  - cbn [foldl]. apply IH.
  - rewrite (flattenCondition_not_stored _ _ Hc). apply IH.
Qed.

(** X6. flatten skips what it does not know: a condition whose Field or
    Equals is nil, or whose lower-cased field name is none of the
    recognized ones, can be removed from the response, wherever it stands,
    without changing the result; and a nil condition, a nil list and an
    empty list all give the one empty map. *)
Theorem flatten_skips_unknown (conditions : list LeafCondition) :
  flattenMonitorActivityLogAlertCriteria
    (Some (mkAllOfCondition (Some (List.filter isStored conditions))))
  = flattenMonitorActivityLogAlertCriteria
      (Some (mkAllOfCondition (Some conditions)))
  /\ (Forall (fun c => isStored c = false) conditions ->
      flattenMonitorActivityLogAlertCriteria
        (Some (mkAllOfCondition (Some conditions)))
      = [VMap ∅])
  /\ flattenMonitorActivityLogAlertCriteria None = [VMap ∅]
  /\ flattenMonitorActivityLogAlertCriteria (Some (mkAllOfCondition None)) = [VMap ∅].
Proof.
  split; [|split; [|split; reflexivity]].
  - unfold flattenMonitorActivityLogAlertCriteria. cbn [AllOf].
    by rewrite foldl_flattenCondition_filter.
  - intros Hall. unfold flattenMonitorActivityLogAlertCriteria. cbn [AllOf].
    do 2 f_equal. induction Hall as [|c cs Hc _ IH]; [reflexivity|].
    cbn [foldl]. by rewrite (flattenCondition_not_stored _ _ Hc).
Qed.

Lemma configKey_renamed (field lower key : string) :
  In (lower, key) renamedFields -> strings.ToLower field = lower ->
  configKey field = key.
Proof.
  intros Hin Hlow. unfold configKey. rewrite Hlow. simpl in Hin.
  repeat (destruct Hin as [[= <- <-]|Hin]; [reflexivity|]). destruct Hin.
Qed.

Lemma configKey_passed (field : string) :
  In (strings.ToLower field) passedFields -> configKey field = field.
Proof.
  intros Hin. unfold configKey. simpl in Hin.
  repeat (destruct Hin as [<-|Hin]; [reflexivity|]). destruct Hin.
Qed.

Lemma flattenCondition_recognized (result : gmap string Value) (field equals : string) :
  In (strings.ToLower field) recognizedFields ->
  flattenCondition result (leaf field equals)
  = <[configKey field := VString equals]> result.
Proof.
  intros Hin. unfold recognizedFields in Hin. apply in_app_or in Hin as [Hin|Hin].
  - apply in_map_iff in Hin as ([lower key] & Hl & Hin). simpl in Hl.
    symmetry in Hl.
    rewrite (configKey_renamed field lower key Hin Hl).
    by apply (flattenCondition_renamed _ _ _ lower).
  - rewrite (configKey_passed field Hin). by apply flattenCondition_passed.
Qed.

(** X7. In flatten the last condition wins: when the response ends with a
    condition on a recognized field, the result holds the Equals of that
    condition under the key of the field, whatever earlier conditions
    stored there, and every other key holds what the earlier conditions
    left. *)
Theorem flatten_last_wins (conditions : list LeafCondition) (field equals : string) :
  In (strings.ToLower field) recognizedFields ->
  exists before,
    flattenMonitorActivityLogAlertCriteria
      (Some (mkAllOfCondition (Some conditions))) = [VMap before]
    /\ flattenMonitorActivityLogAlertCriteria
         (Some (mkAllOfCondition (Some (conditions ++ [leaf field equals]))))
       = [VMap (<[configKey field := VString equals]> before)].
Proof.
  intros Hin. eexists. split; [reflexivity|].
  unfold flattenMonitorActivityLogAlertCriteria. cbn [AllOf].
  by rewrite foldl_snoc, flattenCondition_recognized.
Qed.

Lemma flatten_last_wins_witness :
  flattenMonitorActivityLogAlertCriteria
    (Some (mkAllOfCondition
             (Some ([leaf "operationName" "first"] ++ [leaf "OperationName" "second"]))))
  = [VMap {[ "operation_name" := VString "second" ]}].
Proof.
  destruct (flatten_last_wins [leaf "operationName" "first"] "OperationName" "second")
    as (before & Hb & Ha).
  { vm_compute. tauto. }
  rewrite Ha. injection Hb as <-. reflexivity.
Defined.

(** ** The action block *)

Lemma allStrings_insert (m : gmap string Value) (i : string) (x : Value) :
  m !! i = None ->
  allStrings (<[i := x]> m) <-> (exists s, x = VString s) /\ allStrings m.
Proof.
  intros Hi. split.
  - intros Hall. split.
    + apply (Hall i). by rewrite lookup_insert_eq.
    + intros k y Hk. apply (Hall k). rewrite lookup_insert_ne; [exact Hk|].
      intros ->. congruence.
  - intros [Hx Hall] k y. destruct (decide (k = i)) as [->|Hne].
    + rewrite lookup_insert_eq. by intros [= <-].
    + rewrite lookup_insert_ne by done. apply Hall.
Qed.

Lemma expandWebhookProperties_spec (m : gmap string Value) :
  (allStrings m ->
   expandWebhookProperties m = Returns (omap stringPointerOf m))
  /\ (forall props, expandWebhookProperties m = Returns props -> allStrings m).
Proof.
  unfold expandWebhookProperties.
  apply (map_fold_weak_ind
           (fun r m => (allStrings m -> r = Returns (omap stringPointerOf m))
                       /\ (forall props, r = Returns props -> allStrings m))).
  - split; [intros _; by rewrite omap_empty|].
    intros _ _ k x. by rewrite lookup_empty.
  - intros i x m' r Hi [IH1 IH2]. split.
    + intros [[s ->] Hall]%allStrings_insert; [|exact Hi].
      rewrite (IH1 Hall). simpl.
      by rewrite (omap_insert_Some _ _ _ _ (Some s)).
    + intros props Hr. destruct r as [props'|p]; [|discriminate].
      apply allStrings_insert; [exact Hi|]. split; [|by apply (IH2 props')].
      destruct x; try discriminate. eauto.
Qed.

Lemma expandActionItem_readable (actions : list ActionGroup) (item : Value) :
  readableAction item ->
  expandActionItem actions item
  = Returns (actions ++ option_list (expectedActionGroup item)).
Proof.
  intros (v & agID & -> & Hid & Hprops).
  unfold expandActionItem, expectedActionGroup, mapIndex.
  cbn [assertMap mbind Outcome_bind]. rewrite Hid.
  cbn [assertString default mbind Outcome_bind id].
  destruct (String.eqb_spec agID EmptyString) as [->|Hne]; cbn [negb].
  - simpl. by rewrite app_nil_r.
  - destruct Hprops as [?|[Hnone|(m & Hm & Hall)]]; [done| |].
    + rewrite Hnone. reflexivity.
    + rewrite Hm. cbn [assertMap mbind Outcome_bind].
      rewrite (proj1 (expandWebhookProperties_spec m) Hall). reflexivity.
Qed.

Lemma expandActionItem_returns_inv (actions result : list ActionGroup) (item : Value) :
  expandActionItem actions item = Returns result -> readableAction item.
Proof.
  unfold expandActionItem, mapIndex.
  destruct item as [| | | | |v]; try discriminate.
  cbn [assertMap mbind Outcome_bind].
  destruct (v !! "action_group_id") as [[|agID| | | |]|] eqn:Hid; try discriminate.
  cbn [assertString default mbind Outcome_bind id].
  intros H. exists v, agID. split; [reflexivity|]. split; [exact Hid|].
  destruct (String.eqb_spec agID EmptyString) as [->|Hne]; [by left|right].
  cbn [negb] in H.
  destruct (v !! "webhook_properties") as [pVal|] eqn:Hp; [right|by left].
  destruct pVal as [| | | | |m]; try discriminate.
  cbn [assertMap mbind Outcome_bind] in H.
  destruct (expandWebhookProperties m) as [props|p] eqn:Hm; [|discriminate].
  exists m. split; [reflexivity|].
  exact (proj2 (expandWebhookProperties_spec m) props Hm).
Qed.

Lemma expandActionLoop_panics (p : Panic) (input : list Value) :
  expandActionLoop (Panics p) input = Panics p.
Proof. induction input as [|item input IH]; [reflexivity|exact IH]. Qed.

Lemma expandActionLoop_readable (actions : list ActionGroup) (input : list Value) :
  Forall readableAction input ->
  expandActionLoop (Returns actions) input
  = Returns (actions ++ omap expectedActionGroup input).
Proof.
  intros Hall. revert actions.
  induction Hall as [|item input Hitem _ IH]; intros actions.
  - simpl. by rewrite app_nil_r.
  - unfold expandActionLoop. cbn [foldl mbind Outcome_bind].
    rewrite (expandActionItem_readable _ _ Hitem).
    fold (expandActionLoop (Returns (actions ++ option_list (expectedActionGroup item))) input).
    rewrite IH, <- app_assoc. f_equal.
    cbn [omap list_omap]. by destruct (expectedActionGroup item).
Qed.

Lemma expandActionLoop_returns_inv (actions result : list ActionGroup) (input : list Value) :
  expandActionLoop (Returns actions) input = Returns result ->
  Forall readableAction input.
Proof.
  revert actions. induction input as [|item input IH]; intros actions H;
    [constructor|].
  unfold expandActionLoop in H. cbn [foldl mbind Outcome_bind] in H.
  destruct (expandActionItem actions item) as [actions'|p] eqn:Hitem.
  - constructor; [by eapply expandActionItem_returns_inv|by eapply IH].
  - fold (expandActionLoop (Panics p) input) in H.
    rewrite expandActionLoop_panics in H. discriminate.
Qed.

(** X8. expand of the action block returns exactly when every item of its
    input is a map with a string under "action_group_id" and, unless that
    string is empty, with "webhook_properties" absent or a map of strings;
    any other item makes it panic. An item with an empty group ID is not
    looked at any further. *)
Theorem expandAction_returns_iff (input : list Value) :
  (exists actions, expandMonitorActivityLogAlertAction input = Returns actions)
  <-> Forall readableAction input.
Proof.
  unfold expandMonitorActivityLogAlertAction.
  fold (expandActionLoop (Returns []) input). split.
  - intros [actions H].
    destruct (expandActionLoop (Returns []) input) as [l|p] eqn:Hl; [|discriminate].
    by eapply expandActionLoop_returns_inv.
  - intros Hall. rewrite (expandActionLoop_readable _ _ Hall). eauto.
Qed.

(** X9. On readable items expand of the action block returns a list that
    is not nil and holds, in the order of the input, one action group for
    each item whose group ID is not empty: the ID, and the webhook
    properties as string pointers (an empty map when the item has none).
    Items with an empty group ID are dropped, so the list is never longer
    than the input. *)
Theorem expandAction_value (input : list Value) :
  Forall readableAction input ->
  expandMonitorActivityLogAlertAction input
  = Returns (mkActionList (Some (omap expectedActionGroup input)))
  /\ length (omap expectedActionGroup input) <= length input.
Proof.
  intros Hall. unfold expandMonitorActivityLogAlertAction.
  fold (expandActionLoop (Returns []) input).
  rewrite (expandActionLoop_readable _ _ Hall). split; [reflexivity|].
  clear Hall. induction input as [|item input IH]; [reflexivity|].
  cbn [omap list_omap]. fold (omap expectedActionGroup input).
  destruct (expectedActionGroup item); simpl; lia.
Qed.

Lemma sampleActions_readable : Forall readableAction sampleActions.
Proof.
  repeat constructor.
  - eexists _, "group-a". split; [reflexivity|]. split; [reflexivity|].
    right. right. eexists. split; [reflexivity|].
    intros k x. destruct (decide (k = "from")) as [->|Hne].
    + rewrite lookup_insert_eq. intros [= <-]. eauto.
    + by rewrite lookup_insert_ne, lookup_empty.
  - eexists _, EmptyString. split; [reflexivity|]. split; [reflexivity|]. by left.
  - eexists _, "group-b". split; [reflexivity|]. split; [reflexivity|].
    right. by left.
Qed.

Lemma expandAction_value_witness :
  expandMonitorActivityLogAlertAction sampleActions
  = Returns (mkActionList (Some
      [ mkActionGroup (Some "group-a") {[ "from" := Some "source" ]};
        mkActionGroup (Some "group-b") ∅ ])).
Proof.
  rewrite (proj1 (expandAction_value sampleActions sampleActions_readable)).
  vm_compute. reflexivity.
Defined.

Lemma flattenWebhookProperties_omap (properties : gmap string (option string)) :
  flattenWebhookProperties properties
  = omap (fun pv : option string => VString <$> pv) properties.
Proof.
  unfold flattenWebhookProperties.
  apply (map_fold_weak_ind
           (fun r m => r = omap (fun pv : option string => VString <$> pv) m)).
  - by rewrite omap_empty.
  - intros i pv m r Hi ->. destruct pv as [s|].
    + by rewrite (omap_insert_Some _ _ _ _ (VString s)).
    + rewrite omap_insert_None by done.
      rewrite delete_id; [reflexivity|]. by rewrite lookup_omap, Hi.
Qed.

Lemma flattenActionGroup_entry (action : ActionGroup) :
  flattenActionGroup action = expectedActionEntry action.
Proof.
  unfold flattenActionGroup, expectedActionEntry.
  rewrite flattenWebhookProperties_omap. by destruct (ActionGroupID action).
Qed.

Lemma foldl_flattenActionGroup (result : list Value) (groups : list ActionGroup) :
  foldl (fun result action => result ++ [flattenActionGroup action]) result groups
  = result ++ map expectedActionEntry groups.
Proof.
  revert result. induction groups as [|g groups IH]; intros result.
  - simpl. by rewrite app_nil_r.
  - cbn [foldl map]. rewrite IH, <- app_assoc, flattenActionGroup_entry. reflexivity.
Qed.

(** X10. flatten of the action block gives one entry for each action group
    of the response, in order: a map that always holds
    "webhook_properties", with exactly the properties whose pointer is not
    nil, and holds "action_group_id" only when the pointer to the ID is
    not nil. A nil list gives no entry. *)
Theorem flattenAction_entries (groups : list ActionGroup) :
  flattenMonitorActivityLogAlertAction (Some (mkActionList (Some groups)))
  = map expectedActionEntry groups
  /\ flattenMonitorActivityLogAlertAction None = []
  /\ flattenMonitorActivityLogAlertAction (Some (mkActionList None)) = [].
Proof.
  split; [|split; reflexivity].
  unfold flattenMonitorActivityLogAlertAction. cbn [ActionGroups].
  by rewrite foldl_flattenActionGroup.
Qed.

Lemma canonicalAction_readable (item : Value) :
  canonicalAction item -> readableAction item.
Proof.
  intros (agID & m & Hne & Hall & ->).
  eexists _, agID. split; [reflexivity|]. split.
  - by rewrite lookup_insert_ne, lookup_insert_eq.
  - right. right. exists m. split; [by rewrite lookup_insert_eq|exact Hall].
Qed.

Lemma omap_stringPointerOf_back (m : gmap string Value) :
  allStrings m ->
  omap (fun pv : option string => VString <$> pv) (omap stringPointerOf m) = m.
Proof.
  intros Hall. apply map_eq. intros k. rewrite !lookup_omap.
  destruct (m !! k) as [x|] eqn:Hk; [|reflexivity].
  by destruct (Hall k x Hk) as [s ->].
Qed.

Lemma canonicalAction_back (item : Value) :
  canonicalAction item ->
  expectedActionEntry <$> expectedActionGroup item = Some item.
Proof.
  intros (agID & m & Hne & Hall & ->). unfold expectedActionGroup.
  rewrite lookup_insert_ne by done. rewrite !lookup_insert_eq.
  apply String.eqb_neq in Hne. rewrite Hne. cbn [fmap option_fmap option_map].
  unfold expectedActionEntry. cbn [ActionGroupID WebhookProperties].
  by rewrite (omap_stringPointerOf_back m Hall).
Qed.

(** X11. Round trip of the action block: when every item holds a non-empty
    group ID and a map of strings as webhook properties, and nothing else,
    expand returns, and flatten of what it returns is the input again (key
    for key and value for value; the properties come back as a
    [map[string]string]). *)
Theorem flatten_expand_action (input : list Value) :
  Forall canonicalAction input ->
  exists actions,
    expandMonitorActivityLogAlertAction input = Returns actions
    /\ flattenMonitorActivityLogAlertAction (Some actions) = input.
Proof.
  intros Hall.
  assert (Hread : Forall readableAction input).
  { eapply Forall_impl; [exact Hall|]. apply canonicalAction_readable. }
  exists (mkActionList (Some (omap expectedActionGroup input))). split.
  - unfold expandMonitorActivityLogAlertAction.
    fold (expandActionLoop (Returns []) input).
    by rewrite (expandActionLoop_readable _ _ Hread).
  - unfold flattenMonitorActivityLogAlertAction. cbn [ActionGroups].
    rewrite foldl_flattenActionGroup. cbn [app].
    clear Hread. induction Hall as [|item input Hitem _ IH]; [reflexivity|].
    cbn [omap list_omap]. fold (omap expectedActionGroup input).
    pose proof (canonicalAction_back item Hitem) as Hback.
    destruct (expectedActionGroup item) as [g|]; [|discriminate].
    injection Hback as Hback. cbn [map]. by rewrite Hback, IH.
Qed.

Lemma flatten_expand_action_witness :
  let input :=
    [ VMap (<["webhook_properties" := VMap (<["from" := VString "source"]> ∅)]>
              (<["action_group_id" := VString "group-a"]> ∅)) ] in
  exists actions,
    expandMonitorActivityLogAlertAction input = Returns actions
    /\ flattenMonitorActivityLogAlertAction (Some actions) = input.
Proof.
  apply flatten_expand_action. repeat constructor.
  exists "group-a", (<["from" := VString "source"]> ∅).
  split; [discriminate|]. split; [|reflexivity].
  intros k x. destruct (decide (k = "from")) as [->|Hne].
  - rewrite lookup_insert_eq. intros [= <-]. eauto.
  - by rewrite lookup_insert_ne, lookup_empty.
Defined.

(** Without the properties an item does not come back as it was: flatten
    always writes "webhook_properties". *)
Lemma flatten_expand_action_adds_properties :
  exists actions,
    expandMonitorActivityLogAlertAction [VMap (<["action_group_id" := VString "group-b"]> ∅)]
    = Returns actions
    /\ flattenMonitorActivityLogAlertAction (Some actions)
       = [VMap (<["webhook_properties" := VMap ∅]>
                  (<["action_group_id" := VString "group-b"]> ∅))].
Proof. eexists. split; vm_compute; reflexivity. Qed.

(** ** The delete and the read hook *)

(** X12. The delete hook reports success exactly when the stored ID parses
    and the Delete call of the API either returns no error or returns an
    error with a not-found response; an error without a response, or with
    any other status, is a failure. *)
Theorem delete_succeeds_iff (parse : string -> monitor.Error + ResourceID)
    (d : ResourceData) (meta : Client) :
  snd (resourceMonitorActivityLogAlertDelete parse d meta) = None
  <-> exists id, parse (Id d) = inr id /\
        (snd (Delete meta (ResourceGroup id) (alertName id)) = None \/
         WasNotFound (fst (Delete meta (ResourceGroup id) (alertName id))) = true).
Proof.
  unfold resourceMonitorActivityLogAlertDelete, alertName.
  destruct (parse (Id d)) as [err|id0]; cbn [snd].
  - split; [discriminate|]. by intros (id & [=] & _).
  - destruct (Delete meta (ResourceGroup id0) _) as [resp [err|]] eqn:Hd.
    + destruct (WasNotFound resp) eqn:Hnf; cbn [negb snd]; split.
      * intros _. exists id0. split; [reflexivity|]. rewrite Hd. by right.
      * reflexivity.
      * discriminate.
      * intros (id & [= <-] & H). rewrite Hd in H. cbn [fst snd] in H.
        destruct H; congruence.
    + cbn [snd]. split; [|reflexivity].
      intros _. exists id0. split; [reflexivity|]. rewrite Hd. by left.
Qed.

Section read_properties.

Variable parse : string -> monitor.Error + ResourceID.
Variable notFound : Response -> bool.
Variable flattenStringSlice : option (list string) -> Value.
Variable flattenAndSet :
  ResourceData -> gmap string (option string) -> ResourceData * option monitor.Error.
Variable get : string -> string -> ActivityLogAlertResource * option monitor.Error.
Variable set : ResourceData -> string -> Value -> ResourceData * option monitor.Error.

Local Abbreviation read :=
  (resourceMonitorActivityLogAlertRead parse notFound flattenStringSlice
     flattenAndSet get set).

(** X13. The error paths of the read hook. A stored ID that does not parse
    is reported as it is. When Get answers with an error and a not-found
    response the hook clears the ID, keeps the attributes and reports
    success; with any other error it reports the error wrapped with the
    alert name and the resource group. In none of these cases is an
    attribute written. *)
Theorem read_error_paths (d : ResourceData) :
  (forall err, parse (Id d) = inl err -> read d = (d, Some (Passed err)))
  /\ (forall id resp err,
        parse (Id d) = inr id ->
        get (ResourceGroup id) (alertName id) = (resp, Some err) ->
        read d
        = if notFound (AlertResponse resp)
          then (mkResourceData EmptyString (Attributes d), None)
          else (d, Some (ErrorGetting (alertName id) (ResourceGroup id) err))).
Proof.
  unfold resourceMonitorActivityLogAlertRead, alertName. split.
  - by intros err ->.
  - intros id resp err -> ->. reflexivity.
Qed.

Hypothesis set_keeps_id : forall d key value, Id (fst (set d key value)) = Id d.
Hypothesis flattenAndSet_keeps_id : forall d tags, Id (fst (flattenAndSet d tags)) = Id d.

Lemma setAlertProperties_keeps_id (d : ResourceData) (alert : AlertRuleProperties) :
  Id (fst (setAlertProperties flattenStringSlice set d alert)) = Id d.
Proof.
  unfold setAlertProperties. cbv zeta.
  set (d1 := fst (set d "enabled" _)).
  set (d2 := fst (set d1 "description" _)).
  assert (H2 : Id d2 = Id d) by (unfold d2, d1; by rewrite !set_keeps_id).
  pose proof (set_keeps_id d2 "scopes" (flattenStringSlice (Scopes alert))) as H3.
  destruct (set d2 "scopes" _) as [d3 [err|]]; cbn [fst] in H3 |- *; [congruence|].
  pose proof (set_keeps_id d3 "criteria"
                (VList (flattenMonitorActivityLogAlertCriteria (Condition alert)))) as H4.
  destruct (set d3 "criteria" _) as [d4 [err|]]; cbn [fst] in H4 |- *; [congruence|].
  pose proof (set_keeps_id d4 "action"
                (VList (flattenMonitorActivityLogAlertAction (Actions alert)))) as H5.
  destruct (set d4 "action" _) as [d5 [err|]]; cbn [fst] in H5 |- *; congruence.
Qed.

(** X14. When [d.Set] and [tags.FlattenAndSet] leave the ID alone, the
    read hook changes the ID in one case only: it sets it to the empty
    string when it finds the resource gone. After any other run, failed or
    not, the ID is the one the state handle held before. *)
Theorem read_id (d : ResourceData) :
  Id (fst (read d)) = if foundGone parse notFound get d then EmptyString else Id d.
Proof.
  unfold resourceMonitorActivityLogAlertRead, foundGone, alertName.
  destruct (parse (Id d)) as [err|id]; [reflexivity|].
  destruct (get _ _) as [resp [err|]].
  - by destruct (notFound (AlertResponse resp)).
  - cbv zeta.
    set (d2 := fst (set (fst (set d _ _)) _ _)).
    assert (Hd2 : Id d2 = Id d) by (unfold d2; by rewrite !set_keeps_id).
    destruct (AlertProperties resp) as [alert|].
    + pose proof (setAlertProperties_keeps_id d2 alert) as Hs.
      destruct (setAlertProperties _ _ d2 alert) as [d3 [err|]]; cbn [fst] in Hs |- *.
      * congruence.
      * pose proof (flattenAndSet_keeps_id d3 (Tags resp)) as Hf.
        destruct (flattenAndSet d3 (Tags resp)) as [d4 [err|]]; cbn [fst] in Hf |- *;
          congruence.
    + pose proof (flattenAndSet_keeps_id d2 (Tags resp)) as Hf.
      destruct (flattenAndSet d2 (Tags resp)) as [d4 [err|]]; cbn [fst] in Hf |- *;
        congruence.
Qed.

(** X15. What a successful Get leaves in the state. When [d.Set] stores
    each value under its key and [tags.FlattenAndSet] leaves the other
    attributes alone, then after the read hook the state holds the alert
    name and the resource group of the stored ID, the enabled flag, the
    description and the scopes of the response, under "criteria" the
    flatten of its condition and under "action" the flatten of its
    actions. *)
Theorem read_stores (d : ResourceData) (id : ResourceID)
    (resp : ActivityLogAlertResource) (alert : AlertRuleProperties) :
  (forall d key value, set d key value = storeAttribute d key value) ->
  (forall d tags k, k <> "tags" ->
     Attributes (fst (flattenAndSet d tags)) !! k = Attributes d !! k) ->
  parse (Id d) = inr id ->
  get (ResourceGroup id) (alertName id) = (resp, None) ->
  AlertProperties resp = Some alert ->
  let attributes := Attributes (fst (read d)) in
  attributes !! "name" = Some (VString (alertName id))
  /\ attributes !! "resource_group_name" = Some (VString (ResourceGroup id))
  /\ attributes !! "enabled" = Some (boolPointer (Enabled alert))
  /\ attributes !! "description" = Some (stringPointer (Description alert))
  /\ attributes !! "scopes" = Some (flattenStringSlice (Scopes alert))
  /\ attributes !! "criteria"
     = Some (VList (flattenMonitorActivityLogAlertCriteria (Condition alert)))
  /\ attributes !! "action"
     = Some (VList (flattenMonitorActivityLogAlertAction (Actions alert))).
Proof.
  intros Hset Htags Hparse Hget Halert attributes. subst attributes.
  unfold resourceMonitorActivityLogAlertRead, setAlertProperties.
  rewrite Hparse. cbv beta iota zeta. fold (alertName id).
  rewrite Hget. cbv beta iota zeta. rewrite Halert.
  repeat (rewrite Hset; unfold storeAttribute; cbn [fst snd Id Attributes];
          cbv beta iota zeta).
  match goal with
  | |- context [flattenAndSet ?d0 ?t0] =>
      pose proof (fun k Hk => Htags d0 t0 k Hk) as Hk;
      destruct (flattenAndSet d0 t0) as [d' [err|]]
  end;
    cbn [fst Attributes] in Hk |- *;
    repeat split; (rewrite Hk by discriminate);
      repeat (first [ rewrite lookup_insert_eq; reflexivity
                    | rewrite lookup_insert_ne by discriminate ]).
Qed.

End read_properties.

Lemma read_id_witness :
  Id (fst (resourceMonitorActivityLogAlertRead sampleParse WasNotFound
             sampleFlattenStringSlice storeTags getGone storeAttribute sampleData))
  = EmptyString
  /\ Id (fst (resourceMonitorActivityLogAlertRead sampleParse WasNotFound
                sampleFlattenStringSlice storeTags getFound storeAttribute sampleData))
     = sampleAlertId.
Proof.
  split.
  - exact (read_id sampleParse WasNotFound sampleFlattenStringSlice storeTags
             getGone storeAttribute (fun _ _ _ => eq_refl) (fun _ _ => eq_refl)
             sampleData).
  - exact (read_id sampleParse WasNotFound sampleFlattenStringSlice storeTags
             getFound storeAttribute (fun _ _ _ => eq_refl) (fun _ _ => eq_refl)
             sampleData).
Defined.

Lemma read_stores_witness :
  Attributes (fst (resourceMonitorActivityLogAlertRead sampleParse WasNotFound
                     sampleFlattenStringSlice storeTags getFound storeAttribute
                     sampleData)) !! "criteria"
  = Some (VList [VMap {[ "category" := VString "Administrative" ]}]).
Proof.
  assert (Htags : forall (d : ResourceData) (tags : gmap string (option string)) k,
             k <> "tags" ->
             Attributes (fst (storeTags d tags)) !! k = Attributes d !! k).
  { intros d tags k Hk. unfold storeTags, storeAttribute. cbn [fst Attributes].
    by rewrite lookup_insert_ne. }
  exact (proj1 (proj2 (proj2 (proj2 (proj2 (proj2
           (read_stores sampleParse WasNotFound sampleFlattenStringSlice storeTags
              getFound storeAttribute sampleData
              (mkResourceID "group-1" {[ "activityLogAlerts" := "alert-1" ]})
              (fst (getFound "group-1" "alert-1")) sampleAlert
              (fun _ _ _ => eq_refl) Htags eq_refl eq_refl eq_refl))))))).
Defined.

(** ** The create-and-update hook *)

Section create_properties.

Variable World : Type.
Variable clientGet :
  World -> string -> string -> World * (ActivityLogAlertResource * option monitor.Error).
Variable IsNewResource : ResourceData -> bool.
Variable Get_ : ResourceData -> string -> Value.
Variable Set_ : ResourceData -> string -> Value -> ResourceData * option monitor.Error.
Variable setList : Value -> Outcome (list Value).
Variable ParseAzureResourceID : string -> monitor.Error + ResourceID.
Variable NormalizeLocation : string -> string.
Variable ResponseWasNotFound : Response -> bool.
Variable ExpandStringSlice : list Value -> Outcome (option (list string)).
Variable FlattenStringSlice : option (list string) -> Value.
Variable tagsExpand : gmap string Value -> Outcome (gmap string (option string)).
Variable FlattenAndSet :
  ResourceData -> gmap string (option string) -> ResourceData * option monitor.Error.

Local Abbreviation createUpdate clientCreateOrUpdate :=
  (resourceMonitorActivityLogAlertCreateUpdate World clientGet clientCreateOrUpdate
     IsNewResource Get_ Set_ setList ParseAzureResourceID NormalizeLocation
     ResponseWasNotFound ExpandStringSlice FlattenStringSlice tagsExpand
     FlattenAndSet).

Local Abbreviation parametersOf :=
  (buildParameters Get_ setList NormalizeLocation ExpandStringSlice tagsExpand).

(** X16. The create hook refuses to take over an alert that exists: for a
    new resource, when the Get of the service answers with a non-empty ID
    (without an error, or with a not-found response), the hook returns the
    import-as-exists error for that ID and leaves the state handle as it
    was, whatever CreateOrUpdate would answer and whatever the rest of the
    configuration holds. *)
Theorem create_refuses_existing
    (clientCreateOrUpdate :
       World -> string -> string -> ActivityLogAlertResource -> World * option monitor.Error)
    (w w1 : World) (d : ResourceData) (name resourceGroup id : string)
    (existing : ActivityLogAlertResource) (err : option monitor.Error) :
  Get_ d "name" = VString name ->
  Get_ d "resource_group_name" = VString resourceGroup ->
  IsNewResource d = true ->
  clientGet w resourceGroup name = (w1, (existing, err)) ->
  err = None \/ ResponseWasNotFound (AlertResponse existing) = true ->
  AlertID existing = Some id ->
  id <> EmptyString ->
  createUpdate clientCreateOrUpdate w d
  = Returns (d, Some (ImportAsExistsError "azurerm_monitor_activity_log_alert" id)).
Proof.
  intros Hname Hrg Hnew Hget Herr Hid Hne.
  unfold resourceMonitorActivityLogAlertCreateUpdate, checkExisting.
  rewrite Hname, Hrg, Hnew. cbn [assertString mbind Outcome_bind].
  rewrite Hget, Hid. apply String.eqb_neq in Hne. rewrite Hne. cbn [negb].
  destruct Herr as [->|Hnf]; [reflexivity|].
  rewrite Hnf. by destruct err.
Qed.

(** X17. The request of the hook. When the reads of the configuration
    have the types the hook asserts and the presence check lets it go on,
    the request it builds holds the normalized location "Global", the
    enabled flag, the description, the expanded scopes and tags, and as
    condition and actions what the two expand functions return for the
    criteria and the action items. The hook sends exactly this request
    under the configured name and resource group: when the service answers
    it with an error the hook returns that error wrapped, when the service
    accepts it the hook goes on to read the alert back (an error of that
    Get is returned as it is, a missing ID is reported), in each of these
    cases with the state handle unchanged. *)
Theorem create_sends_parameters
    (clientCreateOrUpdate :
       World -> string -> string -> ActivityLogAlertResource -> World * option monitor.Error)
    (w w1 : World) (d : ResourceData) (name resourceGroup description : string)
    (enabled : bool) (scopesRaw criteriaRaw actionRaw : list Value)
    (t : gmap string Value) (expandedTags : gmap string (option string))
    (scopes : option (list string)) (condition : AllOfCondition)
    (actions : ActionList) :
  Get_ d "name" = VString name ->
  Get_ d "resource_group_name" = VString resourceGroup ->
  (if IsNewResource d
   then checkExisting World clientGet ResponseWasNotFound w name resourceGroup
   else (w, None)) = (w1, None) ->
  Get_ d "enabled" = VBool enabled ->
  Get_ d "description" = VString description ->
  setList (Get_ d "scopes") = Returns scopesRaw ->
  Get_ d "criteria" = VList criteriaRaw ->
  setList (Get_ d "action") = Returns actionRaw ->
  Get_ d "tags" = VMap t ->
  tagsExpand t = Returns expandedTags ->
  ExpandStringSlice scopesRaw = Returns scopes ->
  expandMonitorActivityLogAlertCriteria criteriaRaw = Returns condition ->
  expandMonitorActivityLogAlertAction actionRaw = Returns actions ->
  let parameters :=
    mkActivityLogAlertResource (mkResponse None) None
      (Some (NormalizeLocation "Global"))
      (Some (mkAlertRuleProperties scopes (Some enabled) (Some condition)
               (Some actions) (Some description)))
      expandedTags in
  parametersOf d = Returns parameters
  /\ (forall w2 err,
        clientCreateOrUpdate w1 resourceGroup name parameters = (w2, Some err) ->
        createUpdate clientCreateOrUpdate w d
        = Returns (d, Some (ErrorCreatingOrUpdating name resourceGroup err)))
  /\ (forall w2 w3 read err,
        clientCreateOrUpdate w1 resourceGroup name parameters = (w2, None) ->
        clientGet w2 resourceGroup name = (w3, (read, Some err)) ->
        createUpdate clientCreateOrUpdate w d = Returns (d, Some (ErrorReading err)))
  /\ (forall w2 w3 read,
        clientCreateOrUpdate w1 resourceGroup name parameters = (w2, None) ->
        clientGet w2 resourceGroup name = (w3, (read, None)) ->
        AlertID read = None ->
        createUpdate clientCreateOrUpdate w d
        = Returns (d, Some (IDEmpty name resourceGroup))).
Proof.
  intros Hname Hrg Hcheck Henabled Hdescription Hscopes Hcriteria Haction Htags
    Hexpanded Hslice Hcondition Hactions parameters.
  assert (Hparams : parametersOf d = Returns parameters).
  { unfold buildParameters.
    rewrite Henabled, Hdescription, Hscopes, Hcriteria, Haction, Htags.
    cbn [assertBool assertString assertList assertMap mbind Outcome_bind].
    rewrite Hexpanded. cbn [mbind Outcome_bind].
    rewrite Hslice. cbn [mbind Outcome_bind].
    rewrite Hcondition. cbn [mbind Outcome_bind].
    rewrite Hactions. reflexivity. }
  split; [exact Hparams|].
  unfold resourceMonitorActivityLogAlertCreateUpdate.
  rewrite Hname, Hrg. cbn [assertString mbind Outcome_bind].
  rewrite Hcheck, Hparams. cbn [mbind Outcome_bind].
  repeat split.
  - intros w2 err ->. reflexivity.
  - intros w2 w3 read err -> ->. reflexivity.
  - intros w2 w3 read -> -> ->. reflexivity.
Qed.

(** X18. The hook writes to the state handle only after the alert was
    created and read back with an ID: whenever it returns an error that
    does not come from the read hook, the state handle is the one it was
    given. *)
Theorem create_failure_keeps_state
    (clientCreateOrUpdate :
       World -> string -> string -> ActivityLogAlertResource -> World * option monitor.Error)
    (w : World) (d : ResourceData) :
  match createUpdate clientCreateOrUpdate w d with
  | Returns (d', Some (FromRead _)) => True
  | Returns (d', Some _) => d' = d
  | Returns (_, None) => True
  | Panics _ => True
  end.
Proof.
  unfold resourceMonitorActivityLogAlertCreateUpdate.
  destruct (assertString (Get_ d "name")) as [name|]; [|exact I].
  cbn [mbind Outcome_bind].
  destruct (assertString (Get_ d "resource_group_name")) as [rg|]; [|exact I].
  cbn [mbind Outcome_bind].
  destruct (if IsNewResource d then _ else _) as [w1 [stop|]].
  { unfold checkExisting in *. cbn [mret Outcome_ret]. by destruct stop. }
  destruct (parametersOf d) as [parameters|]; [|exact I].
  cbn [mbind Outcome_bind].
  destruct (clientCreateOrUpdate w1 rg name parameters) as [w2 [e|]]; [reflexivity|].
  destruct (clientGet w2 rg name) as [w3 [read [e|]]]; [reflexivity|].
  destruct (AlertID read) as [id|]; [|reflexivity].
  by destruct (resourceMonitorActivityLogAlertRead _ _ _ _ _ _ _) as [d2 [e|]].
Qed.

End create_properties.

Lemma create_refuses_existing_witness :
  resourceMonitorActivityLogAlertCreateUpdate bool sampleClientGet sampleCreateOrUpdate
    (fun _ => true) sampleGet_ storeAttribute assertList sampleParse strings.ToLower
    WasNotFound sampleExpandStringSlice sampleFlattenStringSlice sampleTagsExpand
    storeTags true sampleConfig
  = Returns (sampleConfig,
             Some (ImportAsExistsError "azurerm_monitor_activity_log_alert" sampleAlertId)).
Proof.
  apply (create_refuses_existing bool sampleClientGet (fun _ => true) sampleGet_
           storeAttribute assertList sampleParse strings.ToLower WasNotFound
           sampleExpandStringSlice sampleFlattenStringSlice sampleTagsExpand storeTags
           sampleCreateOrUpdate true true sampleConfig "alert-1" "group-1" sampleAlertId
           (fst (getFound "group-1" "alert-1")) None);
    solve [reflexivity | by left | discriminate].
Defined.

Lemma create_sends_parameters_witness :
  let parameters :=
    mkActivityLogAlertResource (mkResponse None) None (Some "global")
      (Some (mkAlertRuleProperties (Some ["/subscriptions/sub-1"]) (Some true)
               (Some (mkAllOfCondition (Some [leaf "category" "Administrative"])))
               (Some (mkActionList (Some
                  [ mkActionGroup (Some "group-a") {[ "from" := Some "source" ]};
                    mkActionGroup (Some "group-b") ∅ ])))
               (Some "an alert")))
      ∅ in
  buildParameters sampleGet_ assertList strings.ToLower sampleExpandStringSlice
    sampleTagsExpand sampleConfig
  = Returns parameters
  /\ resourceMonitorActivityLogAlertCreateUpdate bool sampleClientGet
       (fun w _ _ _ => (w, Some (Opaque "denied")))
       (fun _ => true) sampleGet_ storeAttribute assertList sampleParse strings.ToLower
       WasNotFound sampleExpandStringSlice sampleFlattenStringSlice sampleTagsExpand
       storeTags false sampleConfig
     = Returns (sampleConfig,
                Some (ErrorCreatingOrUpdating "alert-1" "group-1" (Opaque "denied"))).
Proof.
  pose proof (create_sends_parameters bool sampleClientGet (fun _ => true) sampleGet_
                storeAttribute assertList sampleParse strings.ToLower WasNotFound
                sampleExpandStringSlice sampleFlattenStringSlice sampleTagsExpand
                storeTags (fun w _ _ _ => (w, Some (Opaque "denied")))
                false false sampleConfig "alert-1" "group-1" "an alert" true
                [VString "/subscriptions/sub-1"] [VMap scenarioCriteria] sampleActions
                ∅ ∅ (Some ["/subscriptions/sub-1"])
                (mkAllOfCondition (Some [leaf "category" "Administrative"]))
                (mkActionList (Some
                   [ mkActionGroup (Some "group-a") {[ "from" := Some "source" ]};
                     mkActionGroup (Some "group-b") ∅ ]))
                eq_refl eq_refl eq_refl eq_refl eq_refl eq_refl eq_refl eq_refl
                eq_refl eq_refl eq_refl eq_refl eq_refl) as (Hparams & Hdenied & _).
  split; [exact Hparams|].
  exact (Hdenied false (Opaque "denied") eq_refl).
Defined.

(** A run of the hook from the configuration to the state: the alert does
    not exist, is created, read back, and the state holds its ID and the
    criteria that are set. *)
Lemma create_sample_run :
  exists d',
    resourceMonitorActivityLogAlertCreateUpdate bool sampleClientGet sampleCreateOrUpdate
      (fun _ => true) sampleGet_ storeAttribute assertList sampleParse strings.ToLower
      WasNotFound sampleExpandStringSlice sampleFlattenStringSlice sampleTagsExpand
      storeTags false sampleConfig
    = Returns (d', None)
    /\ Id d' = sampleAlertId
    /\ Attributes d' !! "criteria"
       = Some (VList [VMap {[ "category" := VString "Administrative" ]}]).
Proof. eexists. split; [vm_compute; reflexivity|]. split; reflexivity. Qed.
